(** * Consent, signalling and reconnection in the collaboration room

    A shallow embedding of the Supabase edge functions
    ([webrtc-signal], [request-screen-share], [request-recording],
    [screen-share-permission], [recording-permission], [update-presence])
    and of the reconnection logic of the [WebRTCPanel] component, with the
    properties of the room specification that they decide.

    Conventions of the embedding.
    - An identifier is a UUID string in the source; here it is a natural
      number, and the counter [next_uuid] of the database stands for
      [gen_random_uuid()].  A request field that is missing or empty (falsy
      in the handler's [!field] test) is [None].
    - A timestamp is a number of milliseconds, in [Z].
    - A table is the list of its rows, oldest insert first.  A query is a
      [filter]; [.single()] yields a row only when exactly one row matches.
    - A handler is a function from the database to a response and the new
      database; calls to the store are taken to succeed. *)

From Stdlib Require Import List Bool Arith ZArith String Lia.
From Stdlib Require Import Permutation Sorted.
Import ListNotations.

Open Scope string_scope.
Open Scope nat_scope.
Open Scope list_scope.

(** ** The database *)

Module Db.

Definition uuid := nat.
Definition timestamp := Z.
Bind Scope Z_scope with timestamp.

(** [rooms] (first migration). *)
Record room_row := {
  room_id : uuid;
  room_code : string
}.

(** [participants] (first migration); [user_id] is UNIQUE. *)
Record participant_row := {
  p_room_id : uuid;
  p_user_id : uuid;
  display_name : string;
  is_host : bool;
  is_online : bool
}.

(** The JSON object kept in [webrtc_sessions.metadata] by the screen-share
    handlers; an absent key is [None]. *)
Record session_metadata := {
  md_status : option string;
  md_hostName : option string;
  md_participantCount : option nat;
  md_requestedAt : option timestamp;
  md_permissionGrantedAt : option timestamp;
  md_cancelledAt : option timestamp
}.

(** [webrtc_sessions]: id, room_id, session_type, host_user_id, started_at,
    ended_at, is_active, metadata.  The table has no [status] column. *)
Record webrtc_session_row := {
  ws_id : uuid;
  ws_room_id : uuid;
  session_type : string;
  host_user_id : uuid;
  ws_started_at : option timestamp;
  ws_ended_at : option timestamp;
  is_active : bool;
  metadata : session_metadata
}.

(** [recording_sessions], the columns the handlers touch. *)
Record recording_session_row := {
  rs_id : uuid;
  rs_room_id : uuid;
  started_by : uuid;
  rs_started_at : option timestamp;
  rs_ended_at : option timestamp;
  rs_status : string;
  rs_hostName : string;
  rs_participantCount : nat
}.

(** [screen_share_permissions] and [recording_permissions] have the same
    shape: UNIQUE(session_id, user_id). *)
Record permission_row := {
  perm_id : uuid;
  perm_session_id : uuid;
  perm_user_id : uuid;
  perm_granted : bool;
  granted_at : timestamp
}.

(** [webrtc_signals]. *)
Record webrtc_signal_row := {
  sig_id : uuid;
  sig_room_id : uuid;
  from_peer : uuid;
  to_peer : uuid;
  signal_type : string;
  signal_data : string;
  created_at : timestamp;
  expires_at : timestamp
}.

Record database := {
  rooms : list room_row;
  participants : list participant_row;
  webrtc_sessions : list webrtc_session_row;
  screen_share_permissions : list permission_row;
  recording_sessions : list recording_session_row;
  recording_permissions : list permission_row;
  webrtc_signals : list webrtc_signal_row;
  next_uuid : uuid
}.

Definition empty_database : database :=
  {| rooms := []; participants := []; webrtc_sessions := [];
     screen_share_permissions := []; recording_sessions := [];
     recording_permissions := []; webrtc_signals := []; next_uuid := 0 |}.

(** [.single()]: the row when exactly one matches, otherwise no data. *)
Definition single {A : Type} (rows : list A) : option A :=
  match rows with
  | [r] => Some r
  | _ => None
  end.

(** [.in(column, values)] on a text column. *)
Definition in_values (v : string) (values : list string) : bool :=
  existsb (String.eqb v) values.

Definition in_ids (v : uuid) (values : list uuid) : bool :=
  existsb (Nat.eqb v) values.

Definition set_participants (db : database) (l : list participant_row)
  : database :=
  {| rooms := rooms db; participants := l;
     webrtc_sessions := webrtc_sessions db;
     screen_share_permissions := screen_share_permissions db;
     recording_sessions := recording_sessions db;
     recording_permissions := recording_permissions db;
     webrtc_signals := webrtc_signals db; next_uuid := next_uuid db |}.

Definition set_webrtc_sessions (db : database) (l : list webrtc_session_row)
  (n : uuid) : database :=
  {| rooms := rooms db; participants := participants db;
     webrtc_sessions := l;
     screen_share_permissions := screen_share_permissions db;
     recording_sessions := recording_sessions db;
     recording_permissions := recording_permissions db;
     webrtc_signals := webrtc_signals db; next_uuid := n |}.

Definition set_screen_share_permissions (db : database)
  (l : list permission_row) (n : uuid) : database :=
  {| rooms := rooms db; participants := participants db;
     webrtc_sessions := webrtc_sessions db;
     screen_share_permissions := l;
     recording_sessions := recording_sessions db;
     recording_permissions := recording_permissions db;
     webrtc_signals := webrtc_signals db; next_uuid := n |}.

Definition set_recording_sessions (db : database)
  (l : list recording_session_row) (n : uuid) : database :=
  {| rooms := rooms db; participants := participants db;
     webrtc_sessions := webrtc_sessions db;
     screen_share_permissions := screen_share_permissions db;
     recording_sessions := l;
     recording_permissions := recording_permissions db;
     webrtc_signals := webrtc_signals db; next_uuid := n |}.

Definition set_recording_permissions (db : database)
  (l : list permission_row) (n : uuid) : database :=
  {| rooms := rooms db; participants := participants db;
     webrtc_sessions := webrtc_sessions db;
     screen_share_permissions := screen_share_permissions db;
     recording_sessions := recording_sessions db;
     recording_permissions := l;
     webrtc_signals := webrtc_signals db; next_uuid := n |}.

End Db.

Import Db.

(** ** The signalling relay: [webrtc-signal] *)

Module Relay.

(** The body of a POST. *)
Record WebRTCSignal := {
  roomId : uuid;
  fromUserId : uuid;
  toUserId : uuid;
  signalType : string;
  signalData : string
}.

Inductive response :=
| Stored
| Signals (signals : list webrtc_signal_row)
| Failure (status : nat) (error : string).


(** [expiresAt.setMinutes(expiresAt.getMinutes() + 5)]. *)
Definition five_minutes : Z := 5 * 60 * 1000.

Definition set_signals (db : database) (l : list webrtc_signal_row)
  (n : uuid) : database :=
  {| rooms := rooms db; participants := participants db;
     webrtc_sessions := webrtc_sessions db;
     screen_share_permissions := screen_share_permissions db;
     recording_sessions := recording_sessions db;
     recording_permissions := recording_permissions db;
     webrtc_signals := l; next_uuid := n |}.

(** The row inserted by a POST: [id] and [created_at] are column defaults
    ([gen_random_uuid()], [NOW()] of the store), [expires_at] is computed by
    the handler from its own clock. *)
Definition new_signal (now dbNow : timestamp) (signal : WebRTCSignal)
  (id : uuid) : webrtc_signal_row :=
  {| sig_id := id;
     sig_room_id := roomId signal;
     from_peer := fromUserId signal;
     to_peer := toUserId signal;
     signal_type := signalType signal;
     signal_data := signalData signal;
     created_at := dbNow;
     expires_at := (now + five_minutes)%Z |}.

(** POST branch: no field of the signal is inspected before the insert. *)
Definition post_signal (now dbNow : timestamp) (signal : WebRTCSignal)
  (db : database) : response * database :=
  let row := new_signal now dbNow signal (next_uuid db) in
  (Stored, set_signals db (webrtc_signals db ++ [row]) (S (next_uuid db))).

(** [.eq('room_id', roomId).eq('to_peer', userId).gt('expires_at', now)]. *)
Definition pending_for (now : timestamp) (room peer : uuid)
  (s : webrtc_signal_row) : bool :=
  (sig_room_id s =? room) && (to_peer s =? peer) && (now <? expires_at s)%Z.

(** [.order('created_at', { ascending: true })]. *)
Fixpoint insert_by_created_at (s : webrtc_signal_row)
  (l : list webrtc_signal_row) : list webrtc_signal_row :=
  match l with
  | [] => [s]
  | x :: l' =>
      if (created_at s <? created_at x)%Z then s :: l
      else x :: insert_by_created_at s l'
  end.

Definition order_by_created_at (l : list webrtc_signal_row)
  : list webrtc_signal_row :=
  fold_right insert_by_created_at [] (rev l).


(** [.delete().in('id', signalIds)]. *)
Definition delete_in (ids : list uuid) (l : list webrtc_signal_row)
  : list webrtc_signal_row :=
  filter (fun s => negb (in_ids (sig_id s) ids)) l.

(** GET branch. *)
Definition get_signals (now : timestamp) (roomId userId : option uuid)
  (db : database) : response * database :=
  match roomId, userId with
  | Some room, Some peer =>
      let signals :=
        order_by_created_at (filter (pending_for now room peer)
                                    (webrtc_signals db)) in
      let db' :=
        if 0 <? List.length signals
        then set_signals db (delete_in (map sig_id signals)
                                       (webrtc_signals db)) (next_uuid db)
        else db in
      (Signals signals, db')
  | _, _ => (Failure 400 "Missing roomId or userId parameter", db)
  end.

(** [cleanup_expired_signals()]: DELETE ... WHERE expires_at < NOW(). *)
Definition cleanup_expired_signals (dbNow : timestamp) (db : database)
  : database :=
  set_signals db
    (filter (fun s => negb (expires_at s <? dbNow)%Z) (webrtc_signals db))
    (next_uuid db).

(** The envelopes a response carries. *)
Definition envelopes (r : response) : list webrtc_signal_row :=
  match r with
  | Signals l => l
  | _ => []
  end.

(** What may happen to the store between two observations. *)
Inductive operation :=
| Send (now dbNow : timestamp) (signal : WebRTCSignal)
| Receive (now : timestamp) (roomId userId : option uuid)
| Sweep (dbNow : timestamp).

Definition run_operation (op : operation) (db : database) : database :=
  match op with
  | Send now dbNow signal => snd (post_signal now dbNow signal db)
  | Receive now room peer => snd (get_signals now room peer db)
  | Sweep dbNow => cleanup_expired_signals dbNow db
  end.

Definition run_operations (ops : list operation) (db : database) : database :=
  fold_left (fun d op => run_operation op d) ops db.

(** Identifiers of stored signals are distinct and below the counter. *)
Definition signals_fresh (db : database) : Prop :=
  NoDup (map sig_id (webrtc_signals db)) /\
  Forall (fun s => sig_id s < next_uuid db) (webrtc_signals db).

(** While the store evolves, the signal stored under [id] keeps the expiry
    it was given, and no later signal takes its identifier. *)
Definition keeps_expiry (id : uuid) (expiry : timestamp) (db : database)
  : Prop :=
  id < next_uuid db /\
  Forall (fun s => sig_id s < next_uuid db) (webrtc_signals db) /\
  forall s, In s (webrtc_signals db) -> sig_id s = id -> expires_at s = expiry.


(** Two signals for peer 7 of room 1, stored out of creation order, and one
    for another peer. *)
Definition to_seven (data : string) : WebRTCSignal :=
  {| roomId := 1; fromUserId := 3; toUserId := 7;
     signalType := "ice-candidate"; signalData := data |}.

Definition busy_relay : database :=
  run_operations
    [Send 0 50 (to_seven "late"); Send 10 20 (to_seven "early");
     Send 20 60 {| roomId := 1; fromUserId := 7; toUserId := 3;
                   signalType := "answer"; signalData := "{}" |}]
    empty_database.

End Relay.

(** ** The consent protocol: request and permission handlers *)

Module Consensus.

(** Body of [request-screen-share] and of [request-recording]
    ([initiatorId] is the field [userId] there). *)
Record SessionRequest := {
  roomId : option uuid;
  initiatorId : option uuid
}.

(** Body of [screen-share-permission] and of [recording-permission]
    ([sessionId] is [recordingSessionId] there). *)
Record PermissionRequest := {
  sessionId : option uuid;
  userId : option uuid;
  granted : option bool
}.

Inductive request_response :=
| RequestFailure (status : nat) (error : string)
| RequestSent (session : uuid) (snapshot : list (uuid * string)).

Inductive permission_response :=
| PermissionFailure (status : nat) (error : string)
| PermissionRecorded (status : string) (responsesReceived : nat)
    (totalParticipants : nat) (canProceed : option bool).

Definition request_status (r : request_response) : nat :=
  match r with
  | RequestFailure s _ => s
  | RequestSent _ _ => 200
  end.

(** [.from('participants').eq('user_id', userId).eq('room_id', roomId)
    .single()]. *)
Definition find_participant (room user : uuid) (db : database)
  : option participant_row :=
  single (filter (fun p => (p_user_id p =? user) && (p_room_id p =? room))
                 (participants db)).

(** [.from('participants').eq('room_id', roomId).eq('is_online', true)]. *)
Definition online_participants (room : uuid) (db : database)
  : list participant_row :=
  filter (fun p => (p_room_id p =? room) && Bool.eqb (is_online p) true)
         (participants db).

Definition snapshot_of (l : list participant_row) : list (uuid * string) :=
  map (fun p => (p_user_id p, display_name p)) l.

(** The value of the column [status] of a [webrtc_sessions] row.  The table
    is created without such a column and no handler writes one (the status of
    a screen share is the key [status] of [metadata]), so the column yields
    no value and a filter on it selects no row. *)
Definition ws_status_column (s : webrtc_session_row) : option string := None.

(** [.from('webrtc_sessions').eq('room_id', roomId)
    .eq('session_type', 'screen_share')
    .in('status', ['active', 'pending_permission']).single()]. *)
Definition existing_screen_share (room : uuid) (db : database)
  : option webrtc_session_row :=
  single (filter (fun s =>
            (ws_room_id s =? room) &&
            (session_type s =? "screen_share")%string &&
            match ws_status_column s with
            | Some v => in_values v ["active"; "pending_permission"]
            | None => false
            end) (webrtc_sessions db)).

(** [.from('recording_sessions').eq('room_id', roomId)
    .in('status', ['recording', 'pending_permission']).single()]. *)
Definition open_recordings (room : uuid) (db : database)
  : list recording_session_row :=
  filter (fun s => (rs_room_id s =? room) &&
                   in_values (rs_status s) ["recording"; "pending_permission"])
         (recording_sessions db).

Definition existing_recording (room : uuid) (db : database)
  : option recording_session_row :=
  single (open_recordings room db).

Definition new_screen_share (now : timestamp) (id room user : uuid)
  (hostName : string) (count : nat) : webrtc_session_row :=
  {| ws_id := id; ws_room_id := room; session_type := "screen_share";
     host_user_id := user; ws_started_at := Some now; ws_ended_at := None;
     is_active := false;
     metadata :=
       {| md_status := Some "pending_permission";
          md_hostName := Some hostName;
          md_participantCount := Some count;
          md_requestedAt := Some now;
          md_permissionGrantedAt := None;
          md_cancelledAt := None |} |}.

Definition new_recording (now : timestamp) (id room user : uuid)
  (hostName : string) (count : nat) : recording_session_row :=
  {| rs_id := id; rs_room_id := room; started_by := user;
     rs_started_at := Some now; rs_ended_at := None;
     rs_status := "pending_permission";
     rs_hostName := hostName; rs_participantCount := count |}.

(** [request-screen-share]. *)
Definition request_screen_share (now : timestamp) (rq : SessionRequest)
  (db : database) : request_response * database :=
  match roomId rq, initiatorId rq with
  | Some room, Some user =>
      match find_participant room user db with
      | None => (RequestFailure 403 "User not in room", db)
      | Some participant =>
          match existing_screen_share room db with
          | Some _ =>
              (RequestFailure 409
                 "Screen sharing already in progress or pending permission",
               db)
          | None =>
              let online := online_participants room db in
              let row := new_screen_share now (next_uuid db) room user
                           (display_name participant) (List.length online) in
              (RequestSent (ws_id row) (snapshot_of online),
               set_webrtc_sessions db (webrtc_sessions db ++ [row])
                                   (S (next_uuid db)))
          end
      end
  | _, _ => (RequestFailure 400 "Missing required fields", db)
  end.

(** [request-recording]. *)
Definition request_recording (now : timestamp) (rq : SessionRequest)
  (db : database) : request_response * database :=
  match roomId rq, initiatorId rq with
  | Some room, Some user =>
      match find_participant room user db with
      | None => (RequestFailure 403 "User not in room", db)
      | Some participant =>
          if negb (is_host participant)
          then (RequestFailure 403 "Only room host can start recording", db)
          else
            match existing_recording room db with
            | Some _ =>
                (RequestFailure 409
                   "Recording already in progress or pending permission",
                 db)
            | None =>
                let online := online_participants room db in
                let row := new_recording now (next_uuid db) room user
                             (display_name participant) (List.length online) in
                (RequestSent (rs_id row) (snapshot_of online),
                 set_recording_sessions db (recording_sessions db ++ [row])
                                        (S (next_uuid db)))
            end
      end
  | _, _ => (RequestFailure 400 "Missing required fields", db)
  end.

(** [.upsert({session_id, user_id, granted},
             {onConflict: 'session_id,user_id'})]:
    a row with that key has its [granted] replaced, otherwise a row is
    inserted. *)
Definition same_voter (session user : uuid) (r : permission_row) : bool :=
  (perm_session_id r =? session) && (perm_user_id r =? user).

Definition set_granted (g : bool) (r : permission_row) : permission_row :=
  {| perm_id := perm_id r; perm_session_id := perm_session_id r;
     perm_user_id := perm_user_id r; perm_granted := g;
     granted_at := granted_at r |}.

Definition upsert (now : timestamp) (id session user : uuid) (g : bool)
  (l : list permission_row) : list permission_row :=
  if existsb (same_voter session user) l
  then map (fun r => if same_voter session user r then set_granted g r else r) l
  else l ++ [{| perm_id := id; perm_session_id := session;
                perm_user_id := user; perm_granted := g;
                granted_at := now |}].

(** [.select('granted').eq('session_id', sessionId)]. *)
Definition ballots (session : uuid) (l : list permission_row)
  : list permission_row :=
  filter (fun r => perm_session_id r =? session) l.

(** [permissions.every(p => p.granted)]. *)
Definition allGranted (permissions : list permission_row) : bool :=
  forallb perm_granted permissions.

(** The outcome computed once the ballot is stored: [newStatus] is [null]
    unless as many ballots as online participants are recorded. *)
Definition newStatus (active : string) (totalResponses totalParticipants : nat)
  (all : bool) : option string :=
  if totalResponses =? totalParticipants
  then Some (if all then active else "cancelled")
  else None.

Definition status_or_waiting (s : option string) : string :=
  match s with
  | Some v => v
  | None => "waiting_for_responses"
  end.

(** The update of the screen-share session: [is_active] and the metadata
    with [status], [permissionGrantedAt], [cancelledAt] overwritten. *)
Definition decide_screen_share (now : timestamp) (status : string) (all : bool)
  (old : session_metadata) (s : webrtc_session_row) : webrtc_session_row :=
  {| ws_id := ws_id s; ws_room_id := ws_room_id s;
     session_type := session_type s; host_user_id := host_user_id s;
     ws_started_at := ws_started_at s; ws_ended_at := ws_ended_at s;
     is_active := all;
     metadata :=
       {| md_status := Some status;
          md_hostName := md_hostName old;
          md_participantCount := md_participantCount old;
          md_requestedAt := md_requestedAt old;
          md_permissionGrantedAt := if all then Some now else None;
          md_cancelledAt := if negb all then Some now else None |} |}.

Definition find_screen_share (session : uuid) (db : database)
  : option webrtc_session_row :=
  single (filter (fun s => ws_id s =? session) (webrtc_sessions db)).

(** [screen-share-permission]. *)
Definition screen_share_permission (now : timestamp) (rq : PermissionRequest)
  (db : database) : permission_response * database :=
  match sessionId rq, userId rq, granted rq with
  | Some sid, Some user, Some g =>
      match find_screen_share sid db with
      | None => (PermissionFailure 404 "Screen share session not found", db)
      | Some session =>
          if negb match md_status (metadata session) with
                  | Some v => (v =? "pending_permission")%string
                  | None => false
                  end
          then (PermissionFailure 400
                  "Screen share session not requesting permission", db)
          else
            let db1 :=
              set_screen_share_permissions db
                (upsert now (next_uuid db) sid user g
                        (screen_share_permissions db))
                (S (next_uuid db)) in
            let onlineParticipants :=
              online_participants (ws_room_id session) db1 in
            let permissions := ballots sid (screen_share_permissions db1) in
            let totalParticipants := List.length onlineParticipants in
            let totalResponses := List.length permissions in
            let all := allGranted permissions in
            let status :=
              newStatus "active" totalResponses totalParticipants all in
            let db2 :=
              match status with
              | Some v =>
                  set_webrtc_sessions db1
                    (map (fun s => if ws_id s =? sid
                                   then decide_screen_share now v all
                                          (metadata session) s
                                   else s) (webrtc_sessions db1))
                    (next_uuid db1)
              | None => db1
              end in
            (PermissionRecorded (status_or_waiting status) totalResponses
               totalParticipants
               (Some (all && (totalResponses =? totalParticipants))),
             db2)
      end
  | _, _, _ => (PermissionFailure 400 "Missing required fields", db)
  end.

(** The update of the recording session: [status], and [started_at] or
    [ended_at] according to the outcome. *)
Definition decide_recording (now : timestamp) (status : string)
  (s : recording_session_row) : recording_session_row :=
  {| rs_id := rs_id s; rs_room_id := rs_room_id s; started_by := started_by s;
     rs_started_at := if (status =? "recording")%string then Some now
                      else rs_started_at s;
     rs_ended_at := if (status =? "cancelled")%string then Some now
                    else rs_ended_at s;
     rs_status := status;
     rs_hostName := rs_hostName s;
     rs_participantCount := rs_participantCount s |}.

Definition find_recording (session : uuid) (db : database)
  : option recording_session_row :=
  single (filter (fun s => rs_id s =? session) (recording_sessions db)).

(** [recording-permission]. *)
Definition recording_permission (now : timestamp) (rq : PermissionRequest)
  (db : database) : permission_response * database :=
  match sessionId rq, userId rq, granted rq with
  | Some sid, Some user, Some g =>
      match find_recording sid db with
      | None => (PermissionFailure 404 "Recording session not found", db)
      | Some session =>
          if negb (rs_status session =? "pending_permission")%string
          then (PermissionFailure 400
                  "Recording session not requesting permission", db)
          else
            let db1 :=
              set_recording_permissions db
                (upsert now (next_uuid db) sid user g
                        (recording_permissions db))
                (S (next_uuid db)) in
            let onlineParticipants :=
              online_participants (rs_room_id session) db1 in
            let permissions := ballots sid (recording_permissions db1) in
            let totalParticipants := List.length onlineParticipants in
            let totalResponses := List.length permissions in
            let all := allGranted permissions in
            let status :=
              newStatus "recording" totalResponses totalParticipants all in
            let db2 :=
              match status with
              | Some v =>
                  set_recording_sessions db1
                    (map (fun s => if rs_id s =? sid
                                   then decide_recording now v s
                                   else s) (recording_sessions db1))
                    (next_uuid db1)
              | None => db1
              end in
            (PermissionRecorded (status_or_waiting status) totalResponses
               totalParticipants None,
             db2)
      end
  | _, _, _ => (PermissionFailure 400 "Missing required fields", db)
  end.

(** [update-presence], the [is_online] part: the participant with that
    [user_id] gets the flag. *)
Definition update_presence (user : uuid) (isOnline : bool) (db : database)
  : database :=
  set_participants db
    (map (fun p => if p_user_id p =? user
                   then {| p_room_id := p_room_id p; p_user_id := p_user_id p;
                           display_name := display_name p;
                           is_host := is_host p; is_online := isOnline |}
                   else p) (participants db)).

(** The state of a session as the handlers read it. *)
Definition screen_share_status (session : uuid) (db : database)
  : option string :=
  match find_screen_share session db with
  | Some s => md_status (metadata s)
  | None => None
  end.

Definition recording_status (session : uuid) (db : database)
  : option string :=
  match find_recording session db with
  | Some s => Some (rs_status s)
  | None => None
  end.

(** *** The two kinds of session, side by side

    The specification speaks of one [requestSession] and one [castBallot]
    with a kind; the source has a handler by kind.  The definitions below
    dispatch on the kind and give a common view of the two session tables. *)

Inductive kind := ScreenShare | Recording.

Definition requestSession (k : kind)
  : timestamp -> SessionRequest -> database -> request_response * database :=
  match k with
  | ScreenShare => request_screen_share
  | Recording => request_recording
  end.

Definition castBallot (k : kind)
  : timestamp -> PermissionRequest -> database
    -> permission_response * database :=
  match k with
  | ScreenShare => screen_share_permission
  | Recording => recording_permission
  end.

(** The status a session has once every ballot is a grant. *)
Definition active_status (k : kind) : string :=
  match k with
  | ScreenShare => "active"
  | Recording => "recording"
  end.

Definition session_state (k : kind) (session : uuid) (db : database)
  : option string :=
  match k with
  | ScreenShare => screen_share_status session db
  | Recording => recording_status session db
  end.

Definition session_room (k : kind) (session : uuid) (db : database)
  : option uuid :=
  match k with
  | ScreenShare => option_map ws_room_id (find_screen_share session db)
  | Recording => option_map rs_room_id (find_recording session db)
  end.

Definition permissions_of (k : kind) (db : database) : list permission_row :=
  match k with
  | ScreenShare => screen_share_permissions db
  | Recording => recording_permissions db
  end.

Definition recorded_ballots (k : kind) (session : uuid) (db : database)
  : list permission_row :=
  ballots session (permissions_of k db).

(** The participants online in the room of the session, now. *)
Definition online_now (k : kind) (session : uuid) (db : database)
  : list participant_row :=
  match session_room k session db with
  | Some room => online_participants room db
  | None => []
  end.

Definition ballot_status (r : permission_response) : option string :=
  match r with
  | PermissionRecorded s _ _ _ => Some s
  | PermissionFailure _ _ => None
  end.

Definition responses_received (r : permission_response) : option nat :=
  match r with
  | PermissionRecorded _ n _ _ => Some n
  | PermissionFailure _ _ => None
  end.

(** A session as either table records it. *)
Record session_view := {
  sv_id : uuid;
  sv_room : uuid;
  sv_initiator : uuid;
  sv_status : option string
}.

Definition session_views (k : kind) (db : database) : list session_view :=
  match k with
  | ScreenShare =>
      map (fun s => {| sv_id := ws_id s; sv_room := ws_room_id s;
                       sv_initiator := host_user_id s;
                       sv_status := md_status (metadata s) |})
          (filter (fun s => (session_type s =? "screen_share")%string)
                  (webrtc_sessions db))
  | Recording =>
      map (fun s => {| sv_id := rs_id s; sv_room := rs_room_id s;
                       sv_initiator := started_by s;
                       sv_status := Some (rs_status s) |})
          (recording_sessions db)
  end.

(** The sessions of a kind that are pending or active in a room. *)
Definition is_open (k : kind) (room : uuid) (v : session_view) : bool :=
  (sv_room v =? room) &&
  match sv_status v with
  | Some s => in_values s [active_status k; "pending_permission"]
  | None => false
  end.

Definition open_sessions (k : kind) (room : uuid) (db : database)
  : list session_view :=
  filter (is_open k room) (session_views k db).

(** A room with three participants online: the host 10 and the guests 11
    and 12. *)
Definition participant (room user : uuid) (name : string) (host : bool)
  : participant_row :=
  {| p_room_id := room; p_user_id := user; display_name := name;
     is_host := host; is_online := true |}.

Definition room_of_three : database :=
  {| rooms := [{| room_id := 1; room_code := "ABC123" |}];
     participants := [participant 1 10 "A" true; participant 1 11 "B" false;
                      participant 1 12 "C" false];
     webrtc_sessions := []; screen_share_permissions := [];
     recording_sessions := []; recording_permissions := [];
     webrtc_signals := []; next_uuid := 100 |}.

Definition ask (room user : uuid) : SessionRequest :=
  {| roomId := Some room; initiatorId := Some user |}.

Definition vote (session user : uuid) (g : bool) : PermissionRequest :=
  {| sessionId := Some session; userId := Some user; granted := Some g |}.

(** What a ballot request does, for either kind: it is refused and changes
    nothing unless the session is pending; on a pending session the ballot is
    upserted, the ballots of the session are counted against the participants
    online in its room, and the session is decided when the two agree. *)
Definition ballot_counted (k : kind) (now : timestamp) (sid user : uuid)
  (g : bool) (db : database) : Prop :=
  let res := castBallot k now (vote sid user g) db in
  let perms := upsert now (next_uuid db) sid user g (permissions_of k db) in
  let total := List.length (ballots sid perms) in
  let online := List.length (online_now k sid db) in
  let decided :=
    newStatus (active_status k) total online (allGranted (ballots sid perms)) in
  permissions_of k (snd res) = perms /\
  participants (snd res) = participants db /\
  fst res = PermissionRecorded (status_or_waiting decided) total online
              (match k with
               | ScreenShare =>
                   Some (allGranted (ballots sid perms) && (total =? online))
               | Recording => None
               end) /\
  session_room k sid (snd res) = session_room k sid db /\
  session_state k sid (snd res)
  = Some (match decided with Some v => v | None => "pending_permission" end).

Definition ballot_refused (k : kind) (now : timestamp) (sid user : uuid)
  (g : bool) (db : database) : Prop :=
  let res := castBallot k now (vote sid user g) db in
  snd res = db /\ ballot_status (fst res) = None.

(** At most one session of the kind is pending or active in any room. *)
Definition one_open_session (k : kind) (db : database) : Prop :=
  forall room, List.length (open_sessions k room db) <= 1.

Definition created_session (id room user : uuid) : session_view :=
  {| sv_id := id; sv_room := room; sv_initiator := user;
     sv_status := Some "pending_permission" |}.

(** The example of the specification: in the room of three, the host asks
    for a session (it gets the identifier 100), then participants answer. *)
Definition asked (k : kind) : database :=
  snd (requestSession k 0 (ask 1 10) room_of_three).

Definition two_granted (k : kind) : database :=
  snd (castBallot k 2 (vote 100 11 true)
         (snd (castBallot k 1 (vote 100 10 true) (asked k)))).

(** One guest answers, the other denies. *)
Definition granted_then_denied (k : kind) : permission_response * database :=
  castBallot k 2 (vote 100 12 false)
    (snd (castBallot k 1 (vote 100 11 true) (asked k))).

(** Participant 12 goes offline after the request; the two others grant. *)
Definition one_left (k : kind) : database :=
  snd (castBallot k 2 (vote 100 11 true)
         (snd (castBallot k 1 (vote 100 10 true)
                 (update_presence 12 false (asked k))))).

End Consensus.

(** ** Reconnection of a lost screen share: [WebRTCPanel] *)

Module Panel.

Inductive status := idle | connecting | connected | reconnecting | failed.

(** What the functions created by one render see of the component state:
    [handleEnded], [handleReconnectScreenShare] and [handleStopScreenShare]
    read [isScreenSharing] and [currentScreenShareSessionId] from the render
    they were created in. *)
Record render := {
  isScreenSharing : bool;
  currentScreenShareSessionId : option uuid
}.

(** The only callback the panel hands to [setTimeout]:
    [() => handleReconnectScreenShare()]. *)
Inductive callback := Reconnect (r : render).

Record timer := {
  timer_id : nat;
  delay : Z;
  callback_of : callback
}.

(** An [async] function suspended at an [await]. *)
Inductive task :=
| DisplayMedia (r : render)
| BackendStop.

(** The refs of the component, its state, and the part of the browser it
    acts on: the ['ended'] listeners, the pending timers and the suspended
    calls. *)
Record panel := {
  localStreamRef : option nat;
  streamEndedHandlerRef : option nat;
  reconnectTimeoutRef : option nat;
  reconnectAttemptsRef : nat;
  isUserStoppedRef : bool;
  state : render;
  statuses : list status;
  listeners : list (nat * render);
  timers : list timer;
  next_timer : nat;
  awaiting : list task;
  getDisplayMediaCalls : nat
}.

Definition maxReconnectAttempts : nat := 3.

(** The status shown: the argument of the latest [setConnectionStatus]. *)
Definition connectionStatus (p : panel) : status := hd idle (statuses p).

Definition set_localStreamRef (v : option nat) (p : panel) : panel :=
  {| localStreamRef := v; streamEndedHandlerRef := streamEndedHandlerRef p;
     reconnectTimeoutRef := reconnectTimeoutRef p;
     reconnectAttemptsRef := reconnectAttemptsRef p;
     isUserStoppedRef := isUserStoppedRef p; state := state p;
     statuses := statuses p; listeners := listeners p; timers := timers p;
     next_timer := next_timer p; awaiting := awaiting p;
     getDisplayMediaCalls := getDisplayMediaCalls p |}.

Definition set_streamEndedHandlerRef (v : option nat) (p : panel) : panel :=
  {| localStreamRef := localStreamRef p; streamEndedHandlerRef := v;
     reconnectTimeoutRef := reconnectTimeoutRef p;
     reconnectAttemptsRef := reconnectAttemptsRef p;
     isUserStoppedRef := isUserStoppedRef p; state := state p;
     statuses := statuses p; listeners := listeners p; timers := timers p;
     next_timer := next_timer p; awaiting := awaiting p;
     getDisplayMediaCalls := getDisplayMediaCalls p |}.

Definition set_reconnectTimeoutRef (v : option nat) (p : panel) : panel :=
  {| localStreamRef := localStreamRef p;
     streamEndedHandlerRef := streamEndedHandlerRef p;
     reconnectTimeoutRef := v;
     reconnectAttemptsRef := reconnectAttemptsRef p;
     isUserStoppedRef := isUserStoppedRef p; state := state p;
     statuses := statuses p; listeners := listeners p; timers := timers p;
     next_timer := next_timer p; awaiting := awaiting p;
     getDisplayMediaCalls := getDisplayMediaCalls p |}.

Definition set_reconnectAttemptsRef (v : nat) (p : panel) : panel :=
  {| localStreamRef := localStreamRef p;
     streamEndedHandlerRef := streamEndedHandlerRef p;
     reconnectTimeoutRef := reconnectTimeoutRef p;
     reconnectAttemptsRef := v;
     isUserStoppedRef := isUserStoppedRef p; state := state p;
     statuses := statuses p; listeners := listeners p; timers := timers p;
     next_timer := next_timer p; awaiting := awaiting p;
     getDisplayMediaCalls := getDisplayMediaCalls p |}.

Definition set_isUserStoppedRef (v : bool) (p : panel) : panel :=
  {| localStreamRef := localStreamRef p;
     streamEndedHandlerRef := streamEndedHandlerRef p;
     reconnectTimeoutRef := reconnectTimeoutRef p;
     reconnectAttemptsRef := reconnectAttemptsRef p;
     isUserStoppedRef := v; state := state p;
     statuses := statuses p; listeners := listeners p; timers := timers p;
     next_timer := next_timer p; awaiting := awaiting p;
     getDisplayMediaCalls := getDisplayMediaCalls p |}.

Definition set_state (v : render) (p : panel) : panel :=
  {| localStreamRef := localStreamRef p;
     streamEndedHandlerRef := streamEndedHandlerRef p;
     reconnectTimeoutRef := reconnectTimeoutRef p;
     reconnectAttemptsRef := reconnectAttemptsRef p;
     isUserStoppedRef := isUserStoppedRef p; state := v;
     statuses := statuses p; listeners := listeners p; timers := timers p;
     next_timer := next_timer p; awaiting := awaiting p;
     getDisplayMediaCalls := getDisplayMediaCalls p |}.

Definition setConnectionStatus (s : status) (p : panel) : panel :=
  {| localStreamRef := localStreamRef p;
     streamEndedHandlerRef := streamEndedHandlerRef p;
     reconnectTimeoutRef := reconnectTimeoutRef p;
     reconnectAttemptsRef := reconnectAttemptsRef p;
     isUserStoppedRef := isUserStoppedRef p; state := state p;
     statuses := s :: statuses p; listeners := listeners p;
     timers := timers p;
     next_timer := next_timer p; awaiting := awaiting p;
     getDisplayMediaCalls := getDisplayMediaCalls p |}.

Definition set_listeners (v : list (nat * render)) (p : panel) : panel :=
  {| localStreamRef := localStreamRef p;
     streamEndedHandlerRef := streamEndedHandlerRef p;
     reconnectTimeoutRef := reconnectTimeoutRef p;
     reconnectAttemptsRef := reconnectAttemptsRef p;
     isUserStoppedRef := isUserStoppedRef p; state := state p;
     statuses := statuses p; listeners := v; timers := timers p;
     next_timer := next_timer p; awaiting := awaiting p;
     getDisplayMediaCalls := getDisplayMediaCalls p |}.

Definition set_timers (v : list timer) (n : nat) (p : panel) : panel :=
  {| localStreamRef := localStreamRef p;
     streamEndedHandlerRef := streamEndedHandlerRef p;
     reconnectTimeoutRef := reconnectTimeoutRef p;
     reconnectAttemptsRef := reconnectAttemptsRef p;
     isUserStoppedRef := isUserStoppedRef p; state := state p;
     statuses := statuses p; listeners := listeners p; timers := v;
     next_timer := n; awaiting := awaiting p;
     getDisplayMediaCalls := getDisplayMediaCalls p |}.

Definition set_awaiting (v : list task) (calls : nat) (p : panel) : panel :=
  {| localStreamRef := localStreamRef p;
     streamEndedHandlerRef := streamEndedHandlerRef p;
     reconnectTimeoutRef := reconnectTimeoutRef p;
     reconnectAttemptsRef := reconnectAttemptsRef p;
     isUserStoppedRef := isUserStoppedRef p; state := state p;
     statuses := statuses p; listeners := listeners p; timers := timers p;
     next_timer := next_timer p; awaiting := v;
     getDisplayMediaCalls := calls |}.

(** [setTimeout(cb, d)] returns the handle of a new pending timer. *)
Definition setTimeout (cb : callback) (d : Z) (p : panel) : nat * panel :=
  (next_timer p,
   set_timers (timers p ++ [{| timer_id := next_timer p; delay := d;
                               callback_of := cb |}])
              (S (next_timer p)) p).

(** [clearTimeout(id)]. *)
Definition clearTimeout (id : nat) (p : panel) : panel :=
  set_timers (filter (fun t => negb (timer_id t =? id)) (timers p))
             (next_timer p) p.

(** [videoTrack.removeEventListener('ended', handleEnded)]. *)
Definition removeEventListener (track : nat) (p : panel) : panel :=
  set_listeners (filter (fun l => negb (fst l =? track)) (listeners p)) p.

(** The [finally] block of [handleStopScreenShare]. *)
Definition stop_finally (p : panel) : panel :=
  set_isUserStoppedRef false
    (setConnectionStatus idle
       (set_reconnectAttemptsRef 0
          (set_state {| isScreenSharing := false;
                        currentScreenShareSessionId := None |} p))).

(** [handleStopScreenShare]: raises the stop flag, clears the timer held in
    [reconnectTimeoutRef], removes the ['ended'] listener, stops the local
    stream, then notifies the backend when the render knows a session,
    which suspends the function before its [finally] block.  The sound, the
    video element and the signalling manager, which the reconnection logic
    does not read, are left out. *)
Definition handleStopScreenShare (r : render) (p : panel) : panel :=
  let p1 := set_isUserStoppedRef true p in
  let p2 := match reconnectTimeoutRef p1 with
            | Some id => set_reconnectTimeoutRef None (clearTimeout id p1)
            | None => p1
            end in
  let p3 := match streamEndedHandlerRef p2 with
            | Some track =>
                set_streamEndedHandlerRef None (removeEventListener track p2)
            | None => p2
            end in
  let p4 := set_localStreamRef None p3 in
  match currentScreenShareSessionId r with
  | Some _ =>
      set_awaiting (awaiting p4 ++ [BackendStop]) (getDisplayMediaCalls p4) p4
  | None => stop_finally p4
  end.

(** [handleReconnectScreenShare] up to its [await getDisplayMedia(...)]. *)
Definition handleReconnectScreenShare (r : render) (p : panel) : panel :=
  let p1 := setConnectionStatus connecting p in
  set_awaiting (awaiting p1 ++ [DisplayMedia r])
               (S (getDisplayMediaCalls p1)) p1.

(** [handleEnded], the listener installed by [setupStreamEndedHandler]. *)
Definition handleEnded (r : render) (p : panel) : panel :=
  if negb (isUserStoppedRef p) && isScreenSharing r &&
     (reconnectAttemptsRef p <? maxReconnectAttempts)
  then
    let p1 := set_reconnectAttemptsRef (S (reconnectAttemptsRef p)) p in
    let p2 := setConnectionStatus reconnecting p1 in
    let (id, p3) :=
      setTimeout (Reconnect r) (2000 * Z.of_nat (reconnectAttemptsRef p1)) p2 in
    set_reconnectTimeoutRef (Some id) p3
  else if isUserStoppedRef p then p
  else handleStopScreenShare r (setConnectionStatus failed p).

(** [setupStreamEndedHandler(stream)]. *)
Definition setupStreamEndedHandler (r : render) (stream : nat) (p : panel)
  : panel :=
  set_streamEndedHandlerRef (Some stream)
    (set_listeners (listeners p ++ [(stream, r)]) p).

(** [handleReconnectScreenShare] after [getDisplayMedia] yields a stream. *)
Definition reconnect_resolved (r : render) (stream : nat) (p : panel)
  : panel :=
  let p1 := set_localStreamRef (Some stream) p in
  let p2 := setupStreamEndedHandler r stream p1 in
  setConnectionStatus connected (set_reconnectAttemptsRef 0 p2).

(** The [catch] block of [handleReconnectScreenShare]. *)
Definition reconnect_rejected (r : render) (errorName : string) (p : panel)
  : panel :=
  let p1 := setConnectionStatus failed p in
  if (errorName =? "NotAllowedError")%string
  then handleStopScreenShare r p1
  else if reconnectAttemptsRef p1 <? maxReconnectAttempts
       then snd (setTimeout (Reconnect r) 5000 p1)
       else handleStopScreenShare r p1.

(** What reaches the panel: the ['ended'] event of a track, the expiry of
    a pending timer, a click on the stop button (which runs the
    [handleStopScreenShare] of the latest render), the settling of a pending
    [getDisplayMedia] and the return of the backend stop call. *)
Inductive event :=
| TrackEnded (track : nat)
| TimerFires (id : nat)
| ClickStop
| DisplayMediaResolves (stream : nat)
| DisplayMediaRejects (errorName : string)
| BackendStopReturns.

Fixpoint take_display_media (l : list task) : option (render * list task) :=
  match l with
  | [] => None
  | DisplayMedia r :: l' => Some (r, l')
  | t :: l' =>
      match take_display_media l' with
      | Some (r, rest) => Some (r, t :: rest)
      | None => None
      end
  end.

Fixpoint take_backend_stop (l : list task) : option (list task) :=
  match l with
  | [] => None
  | BackendStop :: l' => Some l'
  | t :: l' =>
      match take_backend_stop l' with
      | Some rest => Some (t :: rest)
      | None => None
      end
  end.

Definition step (e : event) (p : panel) : panel :=
  match e with
  | TrackEnded track =>
      match find (fun l => fst l =? track) (listeners p) with
      | Some (_, r) => handleEnded r p
      | None => p
      end
  | TimerFires id =>
      match find (fun t => timer_id t =? id) (timers p) with
      | Some t =>
          match callback_of t with
          | Reconnect r => handleReconnectScreenShare r (clearTimeout id p)
          end
      | None => p
      end
  | ClickStop => handleStopScreenShare (state p) p
  | DisplayMediaResolves stream =>
      match take_display_media (awaiting p) with
      | Some (r, rest) =>
          reconnect_resolved r stream
            (set_awaiting rest (getDisplayMediaCalls p) p)
      | None => p
      end
  | DisplayMediaRejects errorName =>
      match take_display_media (awaiting p) with
      | Some (r, rest) =>
          reconnect_rejected r errorName
            (set_awaiting rest (getDisplayMediaCalls p) p)
      | None => p
      end
  | BackendStopReturns =>
      match take_backend_stop (awaiting p) with
      | Some rest => stop_finally (set_awaiting rest (getDisplayMediaCalls p) p)
      | None => p
      end
  end.

Definition run (events : list event) (p : panel) : panel :=
  fold_left (fun q e => step e q) events p.

(** A panel that shares stream 1 under session 500. *)
Definition sharing_render : render :=
  {| isScreenSharing := true; currentScreenShareSessionId := Some 500 |}.

Definition sharing (attempts : nat) : panel :=
  {| localStreamRef := Some 1; streamEndedHandlerRef := Some 1;
     reconnectTimeoutRef := None; reconnectAttemptsRef := attempts;
     isUserStoppedRef := false; state := sharing_render;
     statuses := [connected]; listeners := [(1, sharing_render)];
     timers := []; next_timer := 0; awaiting := [];
     getDisplayMediaCalls := 0 |}.






End Panel.

(** ** The rest of a recording's life: [stop-recording] *)

Module Lifecycle.

Import Consensus.

(** Body of [stop-recording].  [fileUrl] is [None] when missing or empty;
    [fileSize] and [durationSeconds], like the columns they are copied to,
    are not read by any handler and are left out. *)
Record StopRecordingRequest := {
  recordingSessionId : option uuid;
  requesterId : option uuid;
  fileUrl : option string
}.

Inductive stop_response :=
| StopFailure (status : nat) (error : string)
| Stopped (id : uuid) (status : string).

Definition stop_status (r : stop_response) : nat :=
  match r with
  | StopFailure s _ => s
  | Stopped _ _ => 200
  end.

(** The update of [stop-recording]: [status] and [ended_at]. *)
Definition end_recording (now : timestamp) (status : string)
  (s : recording_session_row) : recording_session_row :=
  {| rs_id := rs_id s; rs_room_id := rs_room_id s; started_by := started_by s;
     rs_started_at := rs_started_at s; rs_ended_at := Some now;
     rs_status := status; rs_hostName := rs_hostName s;
     rs_participantCount := rs_participantCount s |}.

(** [session.started_by === userId || participant?.is_host]. *)
Definition canStop (session : recording_session_row) (user : uuid)
  (db : database) : bool :=
  (started_by session =? user) ||
  match find_participant (rs_room_id session) user db with
  | Some p => is_host p
  | None => false
  end.

(** [stop-recording]. *)
Definition stop_recording (now : timestamp) (rq : StopRecordingRequest)
  (db : database) : stop_response * database :=
  match recordingSessionId rq, requesterId rq with
  | Some sid, Some user =>
      match find_recording sid db with
      | None => (StopFailure 404 "Recording session not found", db)
      | Some session =>
          if negb (canStop session user db)
          then (StopFailure 403 "Permission denied", db)
          else if negb (rs_status session =? "recording")%string
          then (StopFailure 400 "Recording session is not active", db)
          else
            let status := match fileUrl rq with
                          | Some _ => "completed"
                          | None => "failed"
                          end in
            (Stopped sid status,
             set_recording_sessions db
               (map (fun s => if rs_id s =? sid
                              then end_recording now status s
                              else s) (recording_sessions db))
               (next_uuid db))
      end
  | _, _ => (StopFailure 400 "Missing required fields", db)
  end.

(** The requests that reach the recording tables, one after the other. *)
Inductive recording_step :=
| AskRecording (now : timestamp) (rq : SessionRequest)
| VoteRecording (now : timestamp) (rq : PermissionRequest)
| StopRecording (now : timestamp) (rq : StopRecordingRequest)
| Presence (user : uuid) (online : bool).

Definition run_recording_step (st : recording_step) (db : database)
  : database :=
  match st with
  | AskRecording now rq => snd (request_recording now rq db)
  | VoteRecording now rq => snd (recording_permission now rq db)
  | StopRecording now rq => snd (stop_recording now rq db)
  | Presence user online => update_presence user online db
  end.

Definition run_recording_steps (l : list recording_step) (db : database)
  : database :=
  fold_left (fun d st => run_recording_step st d) l db.

(** The same ballot value cast for one session by a list of voters. *)
Definition cast_all (k : kind) (now : timestamp) (sid : uuid) (g : bool)
  (voters : list uuid) (db : database) : database :=
  fold_left (fun d v => snd (castBallot k now (vote sid v g) d)) voters db.

(** Ballots of several voters, each with its own value. *)
Definition cast_each (k : kind) (now : timestamp) (sid : uuid)
  (votes : list (uuid * bool)) (db : database) : database :=
  fold_left (fun d v => snd (castBallot k now (vote sid (fst v) (snd v)) d))
            votes db.

(** The key of the UNIQUE constraint of the permission tables. *)
Definition ballot_key (b : permission_row) : uuid * uuid :=
  (perm_session_id b, perm_user_id b).

Definition unique_ballots (l : list permission_row) : Prop :=
  NoDup (map ballot_key l).

(** While grants arrive from voters who had not voted, the session is as
    the count tells: [progress] relates a database to the voters heard. *)
Definition progress (k : kind) (sid : uuid) (db d : database)
  (heard : list uuid) : Prop :=
  session_state k sid d = Some "pending_permission" /\
  participants d = participants db /\
  session_room k sid d = session_room k sid db /\
  List.length (recorded_ballots k sid d) = List.length heard /\
  allGranted (recorded_ballots k sid d) = true /\
  forall b, In b (permissions_of k d) -> perm_session_id b = sid ->
            In (perm_user_id b) heard.

(** A session that is not active and holds a denial by [denier]. *)
Definition standing_denial (k : kind) (sid denier : uuid) (d : database)
  : Prop :=
  (session_state k sid d = Some "pending_permission" \/
   session_state k sid d = Some "cancelled") /\
  exists b, In b (recorded_ballots k sid d) /\
            perm_user_id b = denier /\ perm_granted b = false.

(** The recording of the example, granted by everyone, and then stopped by
    the host from the panel, which sends no file. *)
Definition recording_started : database :=
  snd (castBallot Recording 3 (vote 100 12 true) (two_granted Recording)).

Definition panel_stop : StopRecordingRequest :=
  {| recordingSessionId := Some 100; requesterId := Some 10;
     fileUrl := None |}.

End Lifecycle.

(** ** Direct screen sharing: [start-screen-share] and [stop-screen-share] *)

Module Shares.

(** Body of [start-screen-share].  The optional [metadata] (resolution,
    frame rate, audio) is copied into the row's metadata, where no handler
    reads it; it is left out. *)
Record StartScreenShareRequest := {
  start_roomId : option uuid;
  start_userId : option uuid
}.

(** Body of [stop-screen-share]. *)
Record StopScreenShareRequest := {
  roomId : option uuid;
  userId : option uuid;
  sessionId : option uuid
}.

Inductive start_response :=
| StartFailure (status : nat) (error : string)
| Started (sessionId : uuid).

Inductive stop_response :=
| StopFailure (status : nat) (error : string)
| Stopped (sessionsEnded : nat).

(** [.eq('room_id', roomId).eq('session_type', 'screen_share')
    .eq('is_active', true)]. *)
Definition active_share (room : uuid) (s : webrtc_session_row) : bool :=
  (ws_room_id s =? room) && (session_type s =? "screen_share")%string &&
  Bool.eqb (is_active s) true.

(** [.eq('room_id', roomId).eq('host_user_id', userId)
    .eq('session_type', 'screen_share').eq('is_active', true)]. *)
Definition own_active_share (room user : uuid) (s : webrtc_session_row)
  : bool :=
  (ws_room_id s =? room) && (host_user_id s =? user) &&
  (session_type s =? "screen_share")%string && Bool.eqb (is_active s) true.

(** [.update({ is_active: false, ended_at: now })]. *)
Definition end_share (now : timestamp) (s : webrtc_session_row)
  : webrtc_session_row :=
  {| ws_id := ws_id s; ws_room_id := ws_room_id s;
     session_type := session_type s; host_user_id := host_user_id s;
     ws_started_at := ws_started_at s; ws_ended_at := Some now;
     is_active := false; metadata := metadata s |}.

(** The row inserted by [start-screen-share]: [started_at] and [is_active]
    take their column defaults, [NOW()] and [true]. *)
Definition new_share (dbNow : timestamp) (id room user : uuid)
  (hostName : string) : webrtc_session_row :=
  {| ws_id := id; ws_room_id := room; session_type := "screen_share";
     host_user_id := user; ws_started_at := Some dbNow; ws_ended_at := None;
     is_active := true;
     metadata :=
       {| md_status := None; md_hostName := Some hostName;
          md_participantCount := None; md_requestedAt := None;
          md_permissionGrantedAt := None; md_cancelledAt := None |} |}.

(** [start-screen-share]. *)
Definition start_screen_share (now dbNow : timestamp)
  (rq : StartScreenShareRequest) (db : database) : start_response * database :=
  match start_roomId rq, start_userId rq with
  | Some room, Some user =>
      match Consensus.find_participant room user db with
      | None => (StartFailure 403 "User not in room", db)
      | Some participant =>
          if match single (filter (active_share room) (webrtc_sessions db)) with
             | Some existing => negb (host_user_id existing =? user)
             | None => false
             end
          then (StartFailure 409 "Another user is already sharing their screen",
                db)
          else
            let ended :=
              map (fun s => if own_active_share room user s
                            then end_share now s else s)
                  (webrtc_sessions db) in
            let row := new_share dbNow (next_uuid db) room user
                         (display_name participant) in
            (Started (ws_id row),
             set_webrtc_sessions db (ended ++ [row]) (S (next_uuid db)))
      end
  | _, _ => (StartFailure 400 "Missing required fields", db)
  end.

(** The rows [stop-screen-share] updates: the active screen shares of the
    user in the room, narrowed to one session when [sessionId] is given. *)
Definition to_stop (room user : uuid) (session : option uuid)
  (s : webrtc_session_row) : bool :=
  own_active_share room user s &&
  match session with
  | Some sid => ws_id s =? sid
  | None => true
  end.

(** [stop-screen-share]. *)
Definition stop_screen_share (now : timestamp) (rq : StopScreenShareRequest)
  (db : database) : stop_response * database :=
  match roomId rq, userId rq with
  | Some room, Some user =>
      let updatedSessions :=
        filter (to_stop room user (sessionId rq)) (webrtc_sessions db) in
      let db' :=
        set_webrtc_sessions db
          (map (fun s => if to_stop room user (sessionId rq) s
                         then end_share now s else s) (webrtc_sessions db))
          (next_uuid db) in
      if List.length updatedSessions =? 0
      then (StopFailure 404 "No active screen share session found", db')
      else (Stopped (List.length updatedSessions), db')
  | _, _ => (StopFailure 400 "Missing required fields", db)
  end.

(** At most one screen share is active in any room. *)
Definition one_active_share (db : database) : Prop :=
  forall room,
    List.length (filter (active_share room) (webrtc_sessions db)) <= 1.

Definition begin (room user : uuid) : StartScreenShareRequest :=
  {| start_roomId := Some room; start_userId := Some user |}.

Definition finish (room user : uuid) : StopScreenShareRequest :=
  {| roomId := Some room; userId := Some user; sessionId := None |}.

End Shares.

(** ** More of the panel: retries, and the list of active screen shares *)

Module Reconnection.

Import Panel.

(** One failed attempt and the retry it schedules: [getDisplayMedia]
    rejects, then the timer set by the [catch] block fires. *)
Definition retry_cycle (errorName : string) (p : panel) : panel :=
  step (TimerFires (next_timer p)) (step (DisplayMediaRejects errorName) p).

(** Handles returned by [setTimeout] are new. *)
Definition timers_fresh (p : panel) : Prop :=
  Forall (fun t => timer_id t < next_timer p) (timers p).

(** [ScreenShareSession], without the name and colour shown with it. *)
Record ScreenShareSession := {
  sessionId : uuid;
  hostUserId : uuid;
  startedAt : Z
}.

(** [activeScreenShares]: a [Map] from user to session, in insertion
    order. *)
Definition shares := list (uuid * ScreenShareSession).

(** The first loop of [onScreenShareStopped]: the first entry whose session
    has the identifier is deleted, and its key remembered. *)
Fixpoint remove_session (stopped : uuid) (updated : shares)
  : shares * option uuid :=
  match updated with
  | [] => ([], None)
  | (user, session) :: rest =>
      if sessionId session =? stopped then (rest, Some user)
      else let (rest', removedUserId) := remove_session stopped rest in
           ((user, session) :: rest', removedUserId)
  end.

(** The second loop: the key of the entry started last, among those started
    after [latestTime]. *)
Fixpoint latest_after (latestTime : Z) (nextMostRecent : option uuid)
  (updated : shares) : option uuid :=
  match updated with
  | [] => nextMostRecent
  | (user, session) :: rest =>
      if (latestTime <? startedAt session)%Z
      then latest_after (startedAt session) (Some user) rest
      else latest_after latestTime nextMostRecent rest
  end.

Definition same_user (a b : option uuid) : bool :=
  match a, b with
  | Some x, Some y => x =? y
  | None, None => true
  | _, _ => false
  end.

(** [onScreenShareStopped]: the new map and the new most recent share. *)
Definition onScreenShareStopped (stopped : uuid)
  (mostRecentScreenShare : option uuid) (activeScreenShares : shares)
  : shares * option uuid :=
  let (updated, removedUserId) := remove_session stopped activeScreenShares in
  (updated,
   if same_user removedUserId mostRecentScreenShare
   then latest_after 0 None updated
   else mostRecentScreenShare).

(** Two failed attempts in a row after the share of the example lost its
    track. *)
Definition first_attempt : panel :=
  run [TrackEnded 1; TimerFires 0] (sharing 0).

Definition three_shares : shares :=
  [(10, {| sessionId := 500; hostUserId := 10; startedAt := 30 |});
   (11, {| sessionId := 501; hostUserId := 11; startedAt := 50 |});
   (12, {| sessionId := 502; hostUserId := 12; startedAt := 40 |})].

End Reconnection.

(** ** Peer connections: [WebRTCSignalingManager] *)

Module Signaling.

(** A JavaScript [Map] with user identifiers as keys, in insertion order. *)
Fixpoint map_get {V : Type} (key : uuid) (m : list (uuid * V)) : option V :=
  match m with
  | [] => None
  | (k, v) :: rest => if k =? key then Some v else map_get key rest
  end.

Fixpoint map_set {V : Type} (key : uuid) (value : V) (m : list (uuid * V))
  : list (uuid * V) :=
  match m with
  | [] => [(key, value)]
  | (k, v) :: rest =>
      if k =? key then (k, value) :: rest
      else (k, v) :: map_set key value rest
  end.

Definition map_delete {V : Type} (key : uuid) (m : list (uuid * V))
  : list (uuid * V) :=
  filter (fun e => negb (fst e =? key)) m.

(** The fields of the manager that reconnection reads or writes, the
    pending [setTimeout] calls (delay and target of the [createOffer] they
    run) and the signals handed to [sendSignal] (addressee and type).  A
    peer connection is the number of its creation. *)
Record manager := {
  localStream : option nat;
  peerConnections : list (uuid * nat);
  reconnectAttempts : list (uuid * nat);
  pending : list (Z * uuid);
  sent : list (uuid * string);
  created : nat
}.

Definition maxReconnectAttempts : nat := 3.

(** [handleConnectionFailure(userId)]. *)
Definition handleConnectionFailure (userId : uuid) (m : manager) : manager :=
  let attempts := match map_get userId (reconnectAttempts m) with
                  | Some n => n
                  | None => 0
                  end in
  if attempts <? maxReconnectAttempts
  then {| localStream := localStream m;
          peerConnections := peerConnections m;
          reconnectAttempts :=
            map_set userId (attempts + 1) (reconnectAttempts m);
          pending :=
            pending m ++ [((2000 * Z.of_nat (attempts + 1))%Z, userId)];
          sent := sent m; created := created m |}
  else {| localStream := localStream m;
          peerConnections := map_delete userId (peerConnections m);
          reconnectAttempts := map_delete userId (reconnectAttempts m);
          pending := pending m; sent := sent m; created := created m |}.




(** A manager sharing stream 1 with peers 11 and 12. *)
Definition two_peers : manager :=
  {| localStream := Some 1; peerConnections := [(11, 0); (12, 1)];
     reconnectAttempts := []; pending := []; sent := []; created := 2 |}.

End Signaling.

(** ** Invariants used for sequences of relay operations and of ballots *)

Module Sequences.

Import Relay Consensus.


(** A pending session that ballots cannot decide: nobody is online in its
    room, or it already holds more ballots than participants are online. *)
Definition outnumbered (k : kind) (sid : uuid) (db : database) : Prop :=
  session_state k sid db = Some "pending_permission" /\
  (online_now k sid db = [] \/
   List.length (online_now k sid db)
   < List.length (recorded_ballots k sid db)).

(** Everyone goes offline after the request of the example. *)
Definition deserted (k : kind) : database :=
  update_presence 10 false
    (update_presence 11 false (update_presence 12 false (asked k))).

End Sequences.

(** * Properties *)

(** ** The relay *)

Section RelayFacts.

Import Relay.

Lemma insert_by_created_at_perm s l :
  Permutation (insert_by_created_at s l) (s :: l).
Proof.
  induction l as [|x l IH]; simpl.
  - apply Permutation_refl.
  - destruct (created_at s <? created_at x)%Z.
    + apply Permutation_refl.
    + eapply perm_trans; [apply perm_skip, IH | apply perm_swap].
Qed.

Lemma order_by_created_at_perm l : Permutation (order_by_created_at l) l.
Proof.
  unfold order_by_created_at.
  eapply perm_trans; [|apply Permutation_sym, Permutation_rev].
  induction (rev l) as [|x r IH]; simpl.
  - apply perm_nil.
  - eapply perm_trans; [apply insert_by_created_at_perm|].
    apply perm_skip, IH.
Qed.




Lemma in_order_by_created_at s l : In s (order_by_created_at l) <-> In s l.
Proof.
  split; apply Permutation_in;
    [|apply Permutation_sym]; apply order_by_created_at_perm.
Qed.

Lemma filter_none {A : Type} (f : A -> bool) l :
  (forall x, In x l -> f x = false) -> filter f l = [].
Proof.
  induction l as [|x l IH]; simpl; intros H; trivial.
  rewrite (H x (or_introl eq_refl)). apply IH. intros y Hy. apply H. now right.
Qed.

Lemma in_ids_spec v ids : in_ids v ids = true <-> In v ids.
Proof.
  unfold in_ids. rewrite existsb_exists. split.
  - intros [x [Hx E]]. apply Nat.eqb_eq in E. subst. exact Hx.
  - intros H. exists v. split; [exact H | apply Nat.eqb_refl].
Qed.

Lemma sig_id_injective (l : list webrtc_signal_row) a b :
  NoDup (map sig_id l) -> In a l -> In b l -> sig_id a = sig_id b -> a = b.
Proof.
  induction l as [|x l IH]; simpl; intros Hnd Ha Hb E; [contradiction|].
  inversion Hnd as [|? ? Hx Hl]; subst.
  destruct Ha as [->|Ha], Hb as [->|Hb]; trivial.
  - exfalso. apply Hx. rewrite E. apply in_map, Hb.
  - exfalso. apply Hx. rewrite <- E. apply in_map, Ha.
  - apply IH; assumption.
Qed.

(** With distinct identifiers, deleting the selected identifiers removes the
    selected rows and no other. *)
Lemma delete_selected (P : webrtc_signal_row -> bool) l :
  NoDup (map sig_id l) ->
  delete_in (map sig_id (order_by_created_at (filter P l))) l
  = filter (fun s => negb (P s)) l.
Proof.
  intros Hnd. unfold delete_in. apply filter_ext_in. intros s Hs. f_equal.
  destruct (P s) eqn:EP.
  - apply in_ids_spec, in_map, in_order_by_created_at, filter_In. auto.
  - destruct (in_ids (sig_id s) _) eqn:E; trivial.
    apply in_ids_spec, in_map_iff in E. destruct E as [s' [E Hs']].
    apply in_order_by_created_at, filter_In in Hs'. destruct Hs' as [Hs' EP'].
    assert (s' = s) by (eapply sig_id_injective; eauto). congruence.
Qed.

(** What a receive returns and what it leaves. *)
Lemma get_signals_envelopes now room peer db :
  envelopes (fst (get_signals now (Some room) (Some peer) db))
  = order_by_created_at (filter (pending_for now room peer) (webrtc_signals db)).
Proof. reflexivity. Qed.

Lemma get_signals_store now room peer db :
  webrtc_signals (snd (get_signals now (Some room) (Some peer) db))
  = delete_in (map sig_id (envelopes
                 (fst (get_signals now (Some room) (Some peer) db))))
              (webrtc_signals db).
Proof.
  rewrite get_signals_envelopes. unfold get_signals. cbn [snd].
  destruct (0 <? _) eqn:E; [reflexivity|].
  apply Nat.ltb_ge in E.
  destruct (order_by_created_at _); [|simpl in E; lia].
  unfold delete_in. simpl. symmetry.
  apply forallb_filter_id. apply forallb_forall. reflexivity.
Qed.

Lemma get_signals_counter now room peer db :
  next_uuid (snd (get_signals now room peer db)) = next_uuid db.
Proof.
  destruct room, peer; simpl; trivial. destruct (0 <? _); reflexivity.
Qed.

Lemma received_not_expired now room peer db s :
  In s (envelopes (fst (get_signals now room peer db))) ->
  In s (webrtc_signals db) /\ (now < expires_at s)%Z.
Proof.
  destruct room as [room|], peer as [peer|]; simpl; try contradiction.
  intros H. apply in_order_by_created_at, filter_In in H.
  destruct H as [H E]. split; [exact H|].
  unfold pending_for in E. apply andb_prop in E. destruct E as [_ E].
  apply Z.ltb_lt. exact E.
Qed.

Lemma get_signals_subset now room peer db s :
  In s (webrtc_signals (snd (get_signals now room peer db))) ->
  In s (webrtc_signals db).
Proof.
  destruct room as [room|], peer as [peer|]; simpl; trivial.
  destruct (0 <? _); simpl; trivial.
  unfold delete_in. intros H. apply filter_In in H. tauto.
Qed.

(** Every operation keeps the identifiers distinct and below the counter. *)
Lemma signals_fresh_filter P db :
  signals_fresh db ->
  signals_fresh (set_signals db (filter P (webrtc_signals db)) (next_uuid db)).
Proof.
  intros [Hnd Hlt]. split; simpl.
  - clear Hlt. induction (webrtc_signals db) as [|x l IH]; simpl; trivial.
    inversion Hnd; subst. destruct (P x); simpl; auto.
    constructor; auto. intros H. apply in_map_iff in H.
    destruct H as [y [E Hy]]. apply filter_In in Hy.
    match goal with H : ~ In _ _ |- _ => apply H end.
    rewrite <- E. apply in_map. tauto.
  - rewrite Forall_forall in *. intros s Hs. apply filter_In in Hs.
    apply Hlt. tauto.
Qed.

Lemma signals_fresh_post now dbNow signal db :
  signals_fresh db -> signals_fresh (snd (post_signal now dbNow signal db)).
Proof.
  intros [Hnd Hlt]. split; simpl.
  - rewrite map_app. simpl. apply NoDup_app; trivial.
    + repeat constructor. simpl. tauto.
    + intros x Hx [<-|[]]. apply in_map_iff in Hx.
      destruct Hx as [s [E Hs]]. rewrite Forall_forall in Hlt.
      apply Hlt in Hs. lia.
  - rewrite Forall_forall in *. intros s Hs. apply in_app_or in Hs.
    destruct Hs as [Hs|[<-|[]]]; [apply Hlt in Hs; lia | simpl; lia].
Qed.

Lemma signals_fresh_step op db :
  signals_fresh db -> signals_fresh (run_operation op db).
Proof.
  intros H. destruct op as [now dbNow signal|now room peer|dbNow]; simpl.
  - apply signals_fresh_post, H.
  - destruct room, peer; simpl; trivial.
    destruct (0 <? _); trivial. apply signals_fresh_filter, H.
  - apply signals_fresh_filter, H.
Qed.

Lemma signals_fresh_run ops db :
  signals_fresh db -> signals_fresh (run_operations ops db).
Proof.
  revert db. induction ops as [|op ops IH]; simpl; intros db H; trivial.
  apply IH, signals_fresh_step, H.
Qed.

Lemma signals_fresh_empty : signals_fresh empty_database.
Proof. split; simpl; constructor. Qed.

End RelayFacts.

Section RelayClaims.

Import Relay.

Lemma keeps_expiry_step id expiry op db :
  keeps_expiry id expiry db -> keeps_expiry id expiry (run_operation op db).
Proof.
  intros (Hid & Hlt & Hk). rewrite Forall_forall in Hlt.
  destruct op as [now dbNow signal|now room peer|dbNow].
  - simpl. repeat split; simpl.
    + lia.
    + apply Forall_forall. intros s Hs. apply in_app_or in Hs.
      destruct Hs as [Hs|[<-|[]]]; [apply Hlt in Hs; lia | simpl; lia].
    + intros s Hs E. apply in_app_or in Hs.
      destruct Hs as [Hs|[<-|[]]]; [auto | simpl in E; lia].
  - unfold run_operation. repeat split.
    + rewrite get_signals_counter. exact Hid.
    + rewrite get_signals_counter. apply Forall_forall. intros s Hs.
      apply Hlt. eapply get_signals_subset, Hs.
    + intros s Hs E. apply Hk; [eapply get_signals_subset, Hs | exact E].
  - simpl. repeat split; simpl; trivial.
    + apply Forall_forall. intros s Hs. apply filter_In in Hs. apply Hlt. tauto.
    + intros s Hs E. apply filter_In in Hs. apply Hk; tauto.
Qed.

Lemma keeps_expiry_run id expiry ops db :
  keeps_expiry id expiry db -> keeps_expiry id expiry (run_operations ops db).
Proof.
  revert db. induction ops as [|op ops IH]; simpl; intros db H; trivial.
  apply IH, keeps_expiry_step, H.
Qed.






(** The first receive on [busy_relay] returns the two signals of peer 7,
    earliest first, and leaves the third. *)
Example receive_orders_by_creation :
  map signal_data (envelopes (fst (get_signals 100 (Some 1) (Some 7)
                                     busy_relay))) = ["early"; "late"] /\
  map signal_data (webrtc_signals (snd (get_signals 100 (Some 1) (Some 7)
                                          busy_relay))) = ["{}"].
Proof. split; reflexivity. Qed.

(** C6: a stored signal expires exactly five minutes (300000 ms) after the
    send, and whatever happens to the store afterwards, no receive made at or
    after that time returns it. *)
Theorem expiry_after_five_minutes now dbNow signal db ops t room peer :
  signals_fresh db -> (now + 300000 <= t)%Z ->
  let sent := snd (post_signal now dbNow signal db) in
  (exists row, In row (webrtc_signals sent) /\ sig_id row = next_uuid db /\
               to_peer row = toUserId signal /\
               expires_at row = (now + 300000)%Z) /\
  Forall (fun s => sig_id s <> next_uuid db)
         (envelopes (fst (get_signals t room peer (run_operations ops sent)))).
Proof.
  intros [_ Hlt] Ht. cbn zeta. split.
  - exists (new_signal now dbNow signal (next_uuid db)).
    repeat split. simpl. apply in_or_app. right. left. reflexivity.
  - apply Forall_forall.
    intros s Hs E. apply received_not_expired in Hs. destruct Hs as [Hs Hexp].
    assert (K : keeps_expiry (next_uuid db) (now + 300000)%Z
                  (run_operations ops (snd (post_signal now dbNow signal db)))).
    { apply keeps_expiry_run. repeat split; simpl.
      - lia.
      - rewrite Forall_forall in *. intros x Hx. apply in_app_or in Hx.
        destruct Hx as [Hx|[<-|[]]]; [apply Hlt in Hx; lia | simpl; lia].
      - rewrite Forall_forall in Hlt. intros x Hx Ex. apply in_app_or in Hx.
        destruct Hx as [Hx|[<-|[]]]; [apply Hlt in Hx; lia | reflexivity]. }
    destruct K as (_ & _ & K). rewrite (K s Hs E) in Hexp. lia.
Qed.

Lemma expiry_after_five_minutes_witness :
  Forall (fun s => sig_id s <> 0)
         (envelopes (fst (get_signals 300000 (Some 1) (Some 7)
            (run_operations [Sweep 5]
               (snd (post_signal 0 0 (to_seven "x") empty_database)))))).
Proof.
  apply (expiry_after_five_minutes 0 0 (to_seven "x") empty_database
           [Sweep 5] 300000 (Some 1) (Some 7)).
  - split; simpl; constructor.
  - lia.
Defined.

(** One millisecond before the expiry the signal is still delivered; at the
    expiry it is not. *)
Example expiry_boundary :
  List.length (envelopes (fst (get_signals 299999 (Some 1) (Some 7)
     (snd (post_signal 0 0 (to_seven "x") empty_database))))) = 1 /\
  envelopes (fst (get_signals 300000 (Some 1) (Some 7)
     (snd (post_signal 0 0 (to_seven "x") empty_database)))) = [].
Proof. split; reflexivity. Qed.

End RelayClaims.

(** ** The consent protocol *)

Section ConsensusFacts.

Import Consensus.

Lemma single_inv {A : Type} (l : list A) x : single l = Some x -> l = [x].
Proof.
  destruct l as [|a [|b l]]; simpl; intros H; try discriminate.
  congruence.
Qed.

Lemma single_filter_map {A : Type} (key : A -> uuid) (f : A -> A) sid l x :
  (forall a, key (f a) = key a) ->
  single (filter (fun a => key a =? sid) l) = Some x ->
  single (filter (fun a => key a =? sid)
                 (map (fun a => if key a =? sid then f a else a) l))
  = Some (f x).
Proof.
  intros Hkey H. apply single_inv in H.
  assert (E : filter (fun a => key a =? sid)
                (map (fun a => if key a =? sid then f a else a) l)
              = map f (filter (fun a => key a =? sid) l)).
  { clear H. induction l as [|a l IH]; simpl; trivial.
    destruct (key a =? sid) eqn:Ea; simpl.
    - rewrite Hkey, Ea. simpl. f_equal. exact IH.
    - rewrite Ea. exact IH. }
  rewrite E, H. reflexivity.
Qed.

Lemma ballots_app session l l' :
  ballots session (l ++ l') = ballots session l ++ ballots session l'.
Proof. apply filter_app. Qed.

(** An upsert adds a ballot to the session only when the voter had none. *)
Lemma ballots_upsert_length now id session user g l :
  List.length (ballots session (upsert now id session user g l))
  = if existsb (same_voter session user) l
    then List.length (ballots session l)
    else S (List.length (ballots session l)).
Proof.
  unfold upsert. destruct (existsb _ l) eqn:E.
  - clear E. induction l as [|r l IH]; simpl; trivial.
    assert (Hk : perm_session_id
                   (if same_voter session user r then set_granted g r else r)
                 = perm_session_id r)
      by (destruct (same_voter session user r); reflexivity).
    rewrite Hk. destruct (perm_session_id r =? session); simpl; auto.
  - rewrite ballots_app, length_app. simpl. rewrite Nat.eqb_refl. simpl. lia.
Qed.

Lemma upsert_recorded now id session user g l :
  existsb (same_voter session user) (upsert now id session user g l) = true.
Proof.
  unfold upsert. destruct (existsb _ l) eqn:E.
  - apply existsb_exists in E. destruct E as [r [Hr Er]].
    apply existsb_exists. exists (set_granted g r). split.
    + apply in_map_iff. exists r. rewrite Er. auto.
    + exact Er.
  - rewrite existsb_app. simpl. unfold same_voter at 2. simpl.
    rewrite !Nat.eqb_refl. simpl. apply orb_true_r.
Qed.

(** After an upsert every ballot of the voter in the session carries the
    value just cast. *)
Lemma upsert_overwrites now id session user g l b :
  In b (upsert now id session user g l) ->
  same_voter session user b = true -> perm_granted b = g.
Proof.
  unfold upsert. destruct (existsb _ l) eqn:E; intros Hb Hv.
  - apply in_map_iff in Hb. destruct Hb as [r [Er Hr]].
    destruct (same_voter session user r) eqn:Ev; subst b; [reflexivity|].
    congruence.
  - apply in_app_or in Hb. destruct Hb as [Hb|[<-|[]]]; [|reflexivity].
    exfalso. assert (existsb (same_voter session user) l = true)
      by (apply existsb_exists; eauto). congruence.
Qed.

Lemma online_after_screen_share_ballot room db l n :
  online_participants room (set_screen_share_permissions db l n)
  = online_participants room db.
Proof. reflexivity. Qed.

Lemma online_after_recording_ballot room db l n :
  online_participants room (set_recording_permissions db l n)
  = online_participants room db.
Proof. reflexivity. Qed.

Lemma castBallot_pending k now sid user g db :
  session_state k sid db = Some "pending_permission" ->
  ballot_counted k now sid user g db.
Proof.
  destruct k; unfold ballot_counted, session_state, session_room, online_now,
    session_room, castBallot.
  - unfold screen_share_status, screen_share_permission. cbn [vote sessionId userId granted].
    destruct (find_screen_share sid db) as [session|] eqn:F; [|discriminate].
    intros St. rewrite St. rewrite String.eqb_refl. cbn [negb option_map].
    cbv zeta. cbn [participants set_screen_share_permissions screen_share_permissions
                   next_uuid webrtc_sessions permissions_of].
    rewrite !online_after_screen_share_ballot.
    set (perms := upsert _ _ _ _ _ _).
    set (total := List.length (ballots sid perms)).
    set (online := List.length (online_participants (ws_room_id session) db)).
    destruct (newStatus "active" total online (allGranted (ballots sid perms)))
      as [v|] eqn:D; cbn [fst snd status_or_waiting].
    + unfold find_screen_share.
      cbn [webrtc_sessions set_webrtc_sessions set_screen_share_permissions
           screen_share_permissions participants].
      rewrite (single_filter_map ws_id
                 (decide_screen_share now v (allGranted (ballots sid perms))
                    (metadata session)) sid (webrtc_sessions db) session);
        [|reflexivity|exact F].
      cbn [active_status]. rewrite D. repeat split.
    + unfold find_screen_share.
      cbn [webrtc_sessions set_screen_share_permissions
           screen_share_permissions participants].
      fold (find_screen_share sid db). rewrite F, ?St.
      cbn [active_status]. rewrite D. repeat split.
  - unfold recording_status, recording_permission. cbn [vote sessionId userId granted].
    destruct (find_recording sid db) as [session|] eqn:F; [|discriminate].
    intros St. injection St as St. rewrite St. rewrite String.eqb_refl.
    cbn [negb option_map].
    cbv zeta. cbn [participants set_recording_permissions recording_permissions
                   next_uuid recording_sessions permissions_of].
    rewrite !online_after_recording_ballot.
    set (perms := upsert _ _ _ _ _ _).
    set (total := List.length (ballots sid perms)).
    set (online := List.length (online_participants (rs_room_id session) db)).
    destruct (newStatus "recording" total online (allGranted (ballots sid perms)))
      as [v|] eqn:D; cbn [fst snd status_or_waiting].
    + unfold find_recording.
      cbn [recording_sessions set_recording_sessions set_recording_permissions
           recording_permissions participants].
      rewrite (single_filter_map rs_id (decide_recording now v) sid
                 (recording_sessions db) session);
        [|reflexivity|exact F].
      cbn [active_status]. rewrite D. repeat split.
    + unfold find_recording.
      cbn [recording_sessions set_recording_permissions
           recording_permissions participants].
      fold (find_recording sid db). rewrite F, ?St.
      cbn [active_status]. rewrite D. repeat split.
Qed.

Lemma castBallot_not_pending k now sid user g db :
  session_state k sid db <> Some "pending_permission" ->
  ballot_refused k now sid user g db.
Proof.
  destruct k; unfold ballot_refused, session_state, castBallot.
  - unfold screen_share_status, screen_share_permission.
    cbn [vote sessionId userId granted].
    destruct (find_screen_share sid db) as [session|]; [|split; reflexivity].
    destruct (md_status (metadata session)) as [v|]; [|split; reflexivity].
    destruct (v =? "pending_permission")%string eqn:E; [|split; reflexivity].
    apply String.eqb_eq in E. subst v. intros H. now elim H.
  - unfold recording_status, recording_permission.
    cbn [vote sessionId userId granted].
    destruct (find_recording sid db) as [session|]; [|split; reflexivity].
    destruct (rs_status session =? "pending_permission")%string eqn:E;
      [|split; reflexivity].
    apply String.eqb_eq in E. rewrite E. intros H. now elim H.
Qed.

End ConsensusFacts.

Section ConsensusClaims.

Import Consensus.

Lemma newStatus_decided active total online all v :
  newStatus active total online all = Some v <->
  total = online /\ v = (if all then active else "cancelled").
Proof.
  unfold newStatus. destruct (total =? online) eqn:E.
  - apply Nat.eqb_eq in E. split.
    + intros H. injection H as <-. auto.
    + intros [_ ->]. reflexivity.
  - apply Nat.eqb_neq in E. split; [discriminate | tauto].
Qed.

Lemma newStatus_waiting active total online all :
  newStatus active total online all = None <-> total <> online.
Proof.
  unfold newStatus. destruct (total =? online) eqn:E.
  - apply Nat.eqb_eq in E. split; [discriminate | tauto].
  - apply Nat.eqb_neq in E. tauto.
Qed.

Lemma allGranted_spec l :
  allGranted l = true <-> forall b, In b l -> perm_granted b = true.
Proof. apply forallb_forall. Qed.

Lemma denied_not_allGranted now id sid user l :
  allGranted (ballots sid (upsert now id sid user false l)) = false.
Proof.
  destruct (allGranted _) eqn:E; trivial. exfalso.
  pose proof (upsert_recorded now id sid user false l) as H.
  apply existsb_exists in H. destruct H as [b [Hb Hv]].
  assert (Hg : perm_granted b = false) by (eapply upsert_overwrites; eauto).
  rewrite allGranted_spec in E. rewrite E in Hg; [discriminate|].
  apply filter_In. split; [exact Hb|].
  unfold same_voter in Hv. apply andb_prop in Hv. tauto.
Qed.

(** C1, as the handlers behave: a denial cancels the pending session on the
    call that records it exactly when, with that ballot, as many ballots are
    recorded for the session as participants are online in its room; until
    then the session stays pending and the call answers
    [waiting_for_responses]. *)
Theorem deny_cancels_once_all_responded k now sid user db :
  session_state k sid db = Some "pending_permission" ->
  let res := castBallot k now (vote sid user false) db in
  let responses := List.length (recorded_ballots k sid (snd res)) in
  let online := List.length (online_now k sid db) in
  (responses = online <-> session_state k sid (snd res) = Some "cancelled") /\
  (responses = online <-> ballot_status (fst res) = Some "cancelled") /\
  (responses <> online <->
   session_state k sid (snd res) = Some "pending_permission") /\
  (responses <> online <->
   ballot_status (fst res) = Some "waiting_for_responses").
Proof.
  intros Hp. cbn zeta.
  destruct (castBallot_pending k now sid user false db Hp)
    as (Hperm & _ & Hres & _ & Hst).
  unfold recorded_ballots. rewrite Hperm, Hres, Hst. cbn [ballot_status].
  rewrite denied_not_allGranted.
  set (total := List.length _). set (online := List.length _).
  unfold newStatus. destruct (total =? online) eqn:E; cbn [status_or_waiting].
  - apply Nat.eqb_eq in E.
    repeat split; trivial; try discriminate; intros; contradiction.
  - apply Nat.eqb_neq in E.
    repeat split; trivial; try discriminate; intros; contradiction.
Qed.


Lemma deny_cancels_once_all_responded_witness :
  session_state Recording 100
    (snd (castBallot Recording 3 (vote 100 12 false) (two_granted Recording)))
  = Some "cancelled".
Proof.
  pose proof (deny_cancels_once_all_responded Recording 3 100 12
                (two_granted Recording) eq_refl) as W.
  cbn zeta in W. destruct W as (W & _). apply W. reflexivity.
Defined.

(** C1 as stated fails: with three participants online, after one grant the
    denial of a second participant leaves the session pending, for either
    kind, and is answered [waiting_for_responses] (2 of 3). *)
Lemma denial_waits_for_the_others :
  session_state ScreenShare 100 (asked ScreenShare)
  = Some "pending_permission" /\
  fst (granted_then_denied ScreenShare)
  = PermissionRecorded "waiting_for_responses" 2 3 (Some false) /\
  session_state ScreenShare 100 (snd (granted_then_denied ScreenShare))
  = Some "pending_permission" /\
  fst (granted_then_denied Recording)
  = PermissionRecorded "waiting_for_responses" 2 3 None /\
  session_state Recording 100 (snd (granted_then_denied Recording))
  = Some "pending_permission".
Proof. repeat split. Qed.

Lemma active_is_not_other k :
  active_status k <> "cancelled" /\ active_status k <> "pending_permission".
Proof. destruct k; split; discriminate. Qed.

(** C2, as the handlers behave: a ballot takes the pending session to its
    active state exactly when, with that ballot, the ballots recorded for the
    session are all grants and are as many as the participants online in the
    room at the time of the ballot. *)
Theorem activates_when_all_online_granted k now sid user g db :
  session_state k sid db = Some "pending_permission" ->
  let res := castBallot k now (vote sid user g) db in
  let recorded := recorded_ballots k sid (snd res) in
  session_state k sid (snd res) = Some (active_status k) <->
  List.length recorded = List.length (online_now k sid db) /\
  forall b, In b recorded -> perm_granted b = true.
Proof.
  intros Hp. cbn zeta.
  destruct (castBallot_pending k now sid user g db Hp)
    as (Hperm & _ & _ & _ & Hst).
  destruct (active_is_not_other k) as [Hc Hw].
  unfold recorded_ballots. rewrite Hperm, Hst, <- allGranted_spec.
  set (l := ballots sid _). unfold newStatus.
  destruct (List.length l =? _) eqn:E.
  - apply Nat.eqb_eq in E. destruct (allGranted l); split; auto.
    + intros H. congruence.
    + intros [_ H]. discriminate.
  - apply Nat.eqb_neq in E. split; [congruence | tauto].
Qed.

Lemma activates_when_all_online_granted_witness :
  session_state ScreenShare 100
    (snd (castBallot ScreenShare 3 (vote 100 12 true) (two_granted ScreenShare)))
  = Some "active".
Proof.
  apply (activates_when_all_online_granted ScreenShare 3 100 12 true
           (two_granted ScreenShare) eq_refl).
  split; [reflexivity|].
  intros b Hb. vm_compute in Hb. intuition (subst; reflexivity).
Defined.

(** C2 as stated fails: the request takes a snapshot of three participants
    and records its size, one of them goes offline, and two grants make the
    session active. *)
Lemma active_with_fewer_grants_than_snapshot :
  fst (requestSession ScreenShare 0 (ask 1 10) room_of_three)
  = RequestSent 100 [(10, "A"); (11, "B"); (12, "C")] /\
  option_map (fun s => md_participantCount (metadata s))
             (find_screen_share 100 (one_left ScreenShare)) = Some (Some 3) /\
  session_state ScreenShare 100 (one_left ScreenShare) = Some "active" /\
  List.length (filter perm_granted
                 (recorded_ballots ScreenShare 100 (one_left ScreenShare))) = 2.
Proof. repeat split. Qed.

Lemma option_string_dec (o : option string) s : {o = Some s} + {o <> Some s}.
Proof.
  destruct o as [v|]; [|right; discriminate].
  destruct (string_dec v s) as [->|N]; [left; reflexivity|].
  right. congruence.
Qed.


(** The voter 11 grants and then denies: one ballot is recorded, a denial. *)
Example changed_mind :
  map (fun b => (perm_user_id b, perm_granted b))
      (recorded_ballots ScreenShare 100
         (snd (castBallot ScreenShare 2 (vote 100 11 false)
                 (snd (castBallot ScreenShare 1 (vote 100 11 true)
                         (asked ScreenShare)))))) = [(11, false)].
Proof. reflexivity. Qed.


Lemma filter_map_view {A B : Type} (f : A -> B) (P : B -> bool) l :
  filter P (map f l) = map f (filter (fun a => P (f a)) l).
Proof.
  induction l as [|a l IH]; simpl; trivial.
  destruct (P (f a)); simpl; rewrite IH; reflexivity.
Qed.

Lemma open_recordings_views room db :
  List.length (open_sessions Recording room db)
  = List.length (open_recordings room db).
Proof.
  unfold open_sessions, session_views. rewrite filter_map_view, length_map.
  reflexivity.
Qed.

Lemma single_of_short {A : Type} (l : list A) :
  List.length l <= 1 -> (single l = None <-> l = []).
Proof.
  destruct l as [|a [|b l]]; simpl; intros H.
  - tauto.
  - split; discriminate.
  - lia.
Qed.

Lemma length_zero_nil {A : Type} (l : list A) : List.length l = 0 <-> l = [].
Proof. destruct l; simpl; split; trivial; discriminate. Qed.

Lemma filter_map_shrinks {A : Type} (P : A -> bool) (f : A -> A) l :
  (forall x, In x l -> P (f x) = true -> P x = true) ->
  List.length (filter P (map f l)) <= List.length (filter P l).
Proof.
  induction l as [|a l IH]; simpl; intros H; trivial.
  assert (IH' : List.length (filter P (map f l)) <= List.length (filter P l))
    by (apply IH; intros x Hx; apply H; now right).
  destruct (P (f a)) eqn:E.
  - rewrite (H a (or_introl eq_refl) E). simpl. lia.
  - destruct (P a); simpl; lia.
Qed.

(** Requests and ballots made one after the other keep at most one open
    recording session per room. *)
Lemma one_open_recording_after_request now rq db :
  one_open_session Recording db ->
  one_open_session Recording (snd (requestSession Recording now rq db)).
Proof.
  intros Hone room'. simpl. unfold request_recording.
  destruct (roomId rq) as [room|]; [|apply Hone].
  destruct (initiatorId rq) as [user|]; [|apply Hone].
  destruct (find_participant room user db) as [p|]; [|apply Hone].
  destruct (is_host p); [|apply Hone]. cbn [negb].
  unfold existing_recording.
  destruct (single (open_recordings room db)) eqn:E; [apply Hone|].
  cbn [snd]. rewrite open_recordings_views. unfold open_recordings.
  cbn [recording_sessions set_recording_sessions].
  rewrite filter_app, length_app. fold (open_recordings room' db).
  specialize (Hone room') as Hr. rewrite open_recordings_views in Hr.
  simpl. destruct (room =? room') eqn:Er; simpl; [|lia].
  apply Nat.eqb_eq in Er. subst room'.
  apply (single_of_short _ Hr) in E. rewrite E. simpl. lia.
Qed.

Lemma one_open_recording_after_ballot now rq db :
  one_open_session Recording db ->
  one_open_session Recording (snd (castBallot Recording now rq db)).
Proof.
  intros Hone room'. simpl. unfold recording_permission.
  destruct (sessionId rq) as [sid|]; [|apply Hone].
  destruct (userId rq) as [user|]; [|apply Hone].
  destruct (granted rq) as [g|]; [|apply Hone].
  destruct (find_recording sid db) as [session|] eqn:F; [|apply Hone].
  destruct (rs_status session =? "pending_permission")%string eqn:St;
    [|apply Hone].
  cbn [negb]. cbv zeta. apply String.eqb_eq in St.
  specialize (Hone room') as Hr. rewrite open_recordings_views in Hr.
  destruct (newStatus _ _ _ _) as [v|]; cbn [snd];
    rewrite open_recordings_views; unfold open_recordings;
    cbn [recording_sessions set_recording_sessions set_recording_permissions];
    [|exact Hr].
  eapply Nat.le_trans; [|exact Hr]. unfold open_recordings.
  apply filter_map_shrinks. intros x Hx.
  destruct (rs_id x =? sid) eqn:Ex; [|trivial].
  assert (x = session).
  { apply single_inv in F.
    assert (Hin : In x (filter (fun s => rs_id s =? sid) (recording_sessions db)))
      by (apply filter_In; auto).
    rewrite F in Hin. destruct Hin as [<-|[]]. reflexivity. }
  subst x. simpl. rewrite St. intros H. apply andb_prop in H.
  destruct H as [-> _]. reflexivity.
Qed.

(** The screen-share request never answers 409: the filter on the column
    [status] of [webrtc_sessions] selects nothing. *)
Lemma existing_screen_share_none room db : existing_screen_share room db = None.
Proof.
  unfold existing_screen_share.
  replace (filter _ (webrtc_sessions db)) with (@nil webrtc_session_row);
    [reflexivity|].
  symmetry. apply filter_none. intros s _. unfold ws_status_column.
  apply andb_false_r.
Qed.


(** While the first screen-share session of the room is pending, a second
    request is accepted and a second pending session is created. *)
Example second_screen_share_request_accepted :
  fst (requestSession ScreenShare 5 (ask 1 11) (asked ScreenShare))
  = RequestSent 101 [(10, "A"); (11, "B"); (12, "C")] /\
  map sv_id (open_sessions ScreenShare 1
               (snd (requestSession ScreenShare 5 (ask 1 11)
                       (asked ScreenShare)))) = [100; 101].
Proof. split; reflexivity. Qed.

Lemma screen_share_request_creates now room user db p :
  find_participant room user db = Some p ->
  fst (requestSession ScreenShare now (ask room user) db)
  = RequestSent (next_uuid db) (snapshot_of (online_participants room db)) /\
  session_views ScreenShare (snd (requestSession ScreenShare now
                                    (ask room user) db))
  = session_views ScreenShare db ++ [created_session (next_uuid db) room user].
Proof.
  intros Hp. simpl. unfold request_screen_share. cbn [ask roomId initiatorId].
  rewrite Hp, existing_screen_share_none. cbn [fst snd]. split; [reflexivity|].
  cbn [webrtc_sessions set_webrtc_sessions].
  rewrite filter_app, map_app. reflexivity.
Qed.

(** C3, as the handlers behave, in a room with at most one pending or
    active session of the kind.  A user who is not a participant of the room
    is refused with 403, and so is, for a recording, a participant who is not
    the host, whatever sessions exist.  For an initiator the handler admits:
    a recording request is refused with 409, changing nothing, exactly when
    the room has a recording session pending or recording; and a request of
    either kind made when the room has no pending or active session of the
    kind creates one in [pending_permission] and returns its identifier with
    the participants online. *)
Theorem request_conflicts_with_open_session k now room user db :
  List.length (open_sessions k room db) <= 1 ->
  let res := requestSession k now (ask room user) db in
  match find_participant room user db with
  | None => res = (RequestFailure 403 "User not in room", db)
  | Some p =>
      if match k with
         | Recording => negb (is_host p)
         | ScreenShare => false
         end
      then res = (RequestFailure 403 "Only room host can start recording", db)
      else
        (k = Recording ->
         (request_status (fst res) = 409 <-> open_sessions k room db <> []) /\
         (request_status (fst res) = 409 -> snd res = db)) /\
        (open_sessions k room db = [] ->
         fst res = RequestSent (next_uuid db)
                     (snapshot_of (online_participants room db)) /\
         session_views k (snd res)
         = session_views k db ++ [created_session (next_uuid db) room user])
  end.
Proof.
  intros Hone. cbn zeta.
  destruct (find_participant room user db) as [p|] eqn:Hp.
  2:{ destruct k; simpl; [unfold request_screen_share|unfold request_recording];
      cbn [ask roomId initiatorId]; rewrite Hp; reflexivity. }
  destruct k.
  - split; [discriminate|]. intros _.
    apply (screen_share_request_creates now room user db p Hp).
  - destruct (is_host p) eqn:Hhost; cbn [negb].
    2:{ simpl. unfold request_recording. cbn [ask roomId initiatorId].
        rewrite Hp, Hhost. reflexivity. }
    rewrite open_recordings_views in Hone.
    assert (Hnil : open_sessions Recording room db = []
                   <-> open_recordings room db = []).
    { rewrite <- !length_zero_nil. rewrite open_recordings_views. tauto. }
    rewrite Hnil.
    simpl. unfold request_recording. cbn [ask roomId initiatorId].
    rewrite Hp, Hhost. cbn [negb]. unfold existing_recording.
    pose proof (single_of_short _ Hone) as Hs.
    destruct (single (open_recordings room db)) as [s|] eqn:E; cbn [fst snd].
    + assert (open_recordings room db <> []).
      { intros N. apply Hs in N. discriminate. }
      repeat split; trivial; try contradiction.
    + assert (N : open_recordings room db = []) by (apply Hs; reflexivity).
      split; [intros _; split; [|discriminate]|].
      * split; [discriminate | intros H; now elim H].
      * intros _. split; [reflexivity|].
        cbn [recording_sessions set_recording_sessions].
        rewrite map_app. reflexivity.
Qed.

Lemma request_conflicts_with_open_session_witness :
  request_status (fst (requestSession Recording 5 (ask 1 10) (asked Recording)))
  = 409.
Proof.
  pose proof (request_conflicts_with_open_session Recording 5 1 10
                (asked Recording)) as W.
  cbn zeta in W.
  change (find_participant 1 10 (asked Recording))
    with (Some (participant 1 10 "A" true)) in W.
  cbn [participant is_host negb] in W.
  destruct W as [W _]; [vm_compute; lia|].
  destruct (W eq_refl) as [W' _]. apply W'. discriminate.
Defined.

(** C3 as stated fails: while a recording session of the room is pending, the
    request of a participant who is not the host, and that of a user who is
    not in the room, are refused with 403, not 409. *)
Lemma unauthorised_request_is_not_a_conflict :
  map sv_status (open_sessions Recording 1 (asked Recording))
  = [Some "pending_permission"] /\
  fst (requestSession Recording 5 (ask 1 11) (asked Recording))
  = RequestFailure 403 "Only room host can start recording" /\
  fst (requestSession Recording 5 (ask 1 99) (asked Recording))
  = RequestFailure 403 "User not in room".
Proof. repeat split. Qed.

(** C10: a participant who is not the host has a recording request refused
    with 403 and the host-only message, whatever sessions exist and without
    any change to the store; the screen-share request of the same participant
    is never refused with 403 and, in a room with no pending or active screen
    share, creates the session. *)
Theorem recording_request_needs_host now room user db p :
  find_participant room user db = Some p -> is_host p = false ->
  requestSession Recording now (ask room user) db
  = (RequestFailure 403 "Only room host can start recording", db) /\
  request_status (fst (requestSession ScreenShare now (ask room user) db))
  <> 403 /\
  (open_sessions ScreenShare room db = [] ->
   fst (requestSession ScreenShare now (ask room user) db)
   = RequestSent (next_uuid db) (snapshot_of (online_participants room db))).
Proof.
  intros Hp Hh. split; [|split].
  - simpl. unfold request_recording. cbn [ask roomId initiatorId].
    rewrite Hp, Hh. reflexivity.
  - simpl. unfold request_screen_share. cbn [ask roomId initiatorId].
    rewrite Hp. destruct (existing_screen_share room db); simpl; discriminate.
  - intros _. apply (screen_share_request_creates now room user db p Hp).
Qed.

Lemma recording_request_needs_host_witness :
  requestSession Recording 5 (ask 1 11) (asked Recording)
  = (RequestFailure 403 "Only room host can start recording",
     asked Recording).
Proof.
  apply (recording_request_needs_host 5 1 11 (asked Recording)
           (participant 1 11 "B" false)); reflexivity.
Defined.

End ConsensusClaims.

(** ** Reconnection *)

Section PanelClaims.

Import Panel.

(** The timer held in [reconnectTimeoutRef] does not survive a stop, and the
    stop schedules none. *)
Lemma stop_clears_held_timer r p t :
  In t (timers (handleStopScreenShare r p)) ->
  In t (timers p) /\ reconnectTimeoutRef p <> Some (timer_id t).
Proof.
  unfold handleStopScreenShare. cbn [reconnectTimeoutRef set_isUserStoppedRef].
  destruct (reconnectTimeoutRef p) as [id|];
    destruct (streamEndedHandlerRef _);
    destruct (currentScreenShareSessionId r); simpl; intros H;
    try (apply filter_In in H; destruct H as [H E];
         apply negb_true_iff, Nat.eqb_neq in E);
    split; trivial; congruence.
Qed.

Lemma stop_tears_down r p :
  let q := handleStopScreenShare r p in
  localStreamRef q = None /\ streamEndedHandlerRef q = None /\
  reconnectTimeoutRef q = None /\
  (forall l, In l (listeners q) -> streamEndedHandlerRef p <> Some (fst l)) /\
  statuses q = match currentScreenShareSessionId r with
               | Some _ => statuses p
               | None => idle :: statuses p
               end /\
  (currentScreenShareSessionId r = None ->
   reconnectAttemptsRef q = 0 /\ isUserStoppedRef q = false).
Proof.
  unfold handleStopScreenShare. cbn [reconnectTimeoutRef set_isUserStoppedRef].
  destruct (reconnectTimeoutRef p) as [id|] eqn:To;
    destruct (streamEndedHandlerRef p) as [track|] eqn:Tr;
    cbn [streamEndedHandlerRef set_reconnectTimeoutRef clearTimeout set_timers
         set_isUserStoppedRef]; rewrite ?Tr;
    destruct (currentScreenShareSessionId r); simpl; rewrite ?Tr, ?To;
    (split; [reflexivity|]); (split; [reflexivity|]); (split; [reflexivity|]);
    (split; [|split; [reflexivity | intros; try discriminate; split; reflexivity]]);
    intros l Hl; try discriminate;
    apply filter_In in Hl; destruct Hl as [_ E];
    apply negb_true_iff, Nat.eqb_neq in E; congruence.
Qed.



(** The retry scheduled by the [catch] block of [handleReconnectScreenShare]
    is not the timer the panel holds: a stop that follows leaves it
    pending. *)
Lemma retry_outlives_stop r r' errorName p :
  errorName <> "NotAllowedError" -> reconnectAttemptsRef p < 3 ->
  (forall id, reconnectTimeoutRef p = Some id -> id < next_timer p) ->
  In {| timer_id := next_timer p; delay := 5000; callback_of := Reconnect r |}
     (timers (handleStopScreenShare r' (reconnect_rejected r errorName p))).
Proof.
  intros Herr Hlt Hheld. unfold reconnect_rejected.
  apply String.eqb_neq in Herr. rewrite Herr.
  cbn [reconnectAttemptsRef setConnectionStatus].
  assert (E : (reconnectAttemptsRef p <? maxReconnectAttempts) = true)
    by (apply Nat.ltb_lt; exact Hlt).
  rewrite E. unfold handleStopScreenShare.
  cbn [setTimeout snd reconnectTimeoutRef set_timers set_isUserStoppedRef
       setConnectionStatus].
  destruct (reconnectTimeoutRef p) as [id|] eqn:To;
    destruct (streamEndedHandlerRef _);
    destruct (currentScreenShareSessionId r'); simpl;
    try (apply filter_In; split;
         [|simpl; apply negb_true_iff, Nat.eqb_neq;
           specialize (Hheld id eq_refl); lia]);
    apply in_or_app; right; left; reflexivity.
Qed.



(** Three track-ended events in a row are answered with timers of 2, 4 and
    6 seconds; a fourth is answered with [failed] and the teardown. *)
Example three_backoffs :
  map delay (timers (run [TrackEnded 1; TrackEnded 1; TrackEnded 1]
                         (sharing 0))) = [2000; 4000; 6000]%Z /\
  statuses (run [TrackEnded 1; TrackEnded 1; TrackEnded 1; TrackEnded 1]
                (sharing 0))
  = [failed; reconnecting; reconnecting; reconnecting; connected] /\
  connectionStatus
    (run [TrackEnded 1; TrackEnded 1; TrackEnded 1; TrackEnded 1;
          BackendStopReturns] (sharing 0)) = idle.
Proof. repeat split. Qed.



End PanelClaims.

(** * Further properties *)

(** ** The relay: sweeping and receivers side by side *)

Section RelayMore.

Import Relay.

Lemma filter_filter_implied {A : Type} (P Q : A -> bool) l :
  (forall x, In x l -> P x = true -> Q x = true) ->
  filter P (filter Q l) = filter P l.
Proof.
  induction l as [|a l IH]; simpl; intros H; trivial.
  assert (IH' : filter P (filter Q l) = filter P l)
    by (apply IH; intros x Hx; apply H; now right).
  destruct (Q a) eqn:EQ; simpl.
  - rewrite IH'. reflexivity.
  - destruct (P a) eqn:EP; [|exact IH'].
    rewrite (H a (or_introl eq_refl) EP) in EQ. discriminate.
Qed.

(** X1: The periodic sweep removes only rows that no receive made at or after
    the sweep would return: receivers cannot tell whether it ran. *)
Theorem sweep_is_invisible swept now room peer db :
  (swept <= now)%Z ->
  fst (get_signals now room peer (cleanup_expired_signals swept db))
  = fst (get_signals now room peer db).
Proof.
  intros Hle. destruct room as [room|], peer as [peer|]; trivial.
  unfold get_signals. cbn [fst]. f_equal. f_equal.
  unfold cleanup_expired_signals. cbn [webrtc_signals set_signals].
  apply filter_filter_implied. intros s _ Hs.
  unfold pending_for in Hs. apply andb_prop in Hs. destruct Hs as [_ Hs].
  apply Z.ltb_lt in Hs. apply negb_true_iff, Z.ltb_ge. lia.
Qed.

Lemma sweep_is_invisible_witness :
  fst (get_signals 100 (Some 1) (Some 7) (cleanup_expired_signals 100 busy_relay))
  = fst (get_signals 100 (Some 1) (Some 7) busy_relay).
Proof.
  apply (sweep_is_invisible 100 100 (Some 1) (Some 7) busy_relay). lia.
Defined.

(** X2: A receive consumes only the signals of its own peer and room: what any
    other peer, or the same peer in another room, receives next is what it
    would have received anyway. *)
Theorem receive_leaves_other_peers now room peer now' room' peer' db :
  signals_fresh db -> room <> room' \/ peer <> peer' ->
  fst (get_signals now' (Some room') (Some peer')
         (snd (get_signals now (Some room) (Some peer) db)))
  = fst (get_signals now' (Some room') (Some peer') db).
Proof.
  intros [Hnd _] Hother.
  assert (Hstore : webrtc_signals
                     (snd (get_signals now (Some room) (Some peer) db))
                   = filter (fun s => negb (pending_for now room peer s))
                            (webrtc_signals db)).
  { rewrite get_signals_store, get_signals_envelopes.
    apply delete_selected, Hnd. }
  unfold get_signals at 1 3. cbn [fst]. rewrite Hstore. f_equal. f_equal.
  apply filter_filter_implied. intros s _ Hs. apply negb_true_iff.
  unfold pending_for in *.
  apply andb_prop in Hs. destruct Hs as [Hs _].
  apply andb_prop in Hs. destruct Hs as [Hr Hp].
  apply Nat.eqb_eq in Hr, Hp.
  destruct (sig_room_id s =? room) eqn:Er; trivial.
  destruct (to_peer s =? peer) eqn:Ep; trivial.
  apply Nat.eqb_eq in Er, Ep. exfalso. destruct Hother; congruence.
Qed.

Lemma receive_leaves_other_peers_witness :
  fst (get_signals 100 (Some 1) (Some 3)
         (snd (get_signals 100 (Some 1) (Some 7) busy_relay)))
  = fst (get_signals 100 (Some 1) (Some 3) busy_relay).
Proof.
  apply (receive_leaves_other_peers 100 1 7 100 1 3 busy_relay).
  - split; simpl.
    + repeat constructor; simpl; intuition discriminate.
    + repeat constructor.
  - right. discriminate.
Defined.

End RelayMore.

(** ** The consent protocol: refusals, sequences of ballots, isolation *)

Section ConsensusMore.

Import Consensus Lifecycle.

(** A ballot request either lacks a field or is a vote. *)
Lemma permission_request_cases (rq : PermissionRequest) :
  (sessionId rq = None \/ userId rq = None \/ granted rq = None) \/
  exists sid user g, rq = vote sid user g.
Proof.
  destruct rq as [[sid|] [user|] [g|]]; simpl; auto.
  right. exists sid, user, g. reflexivity.
Qed.

Lemma castBallot_incomplete k now rq db :
  sessionId rq = None \/ userId rq = None \/ granted rq = None ->
  castBallot k now rq db = (PermissionFailure 400 "Missing required fields", db).
Proof.
  destruct rq as [[sid|] [user|] [g|]]; simpl;
    intros [H|[H|H]]; try discriminate;
    destruct k; reflexivity.
Qed.

(** Every ballot request is either refused, changing nothing, or counted. *)
Lemma castBallot_cases k now rq db :
  (snd (castBallot k now rq db) = db /\
   ballot_status (fst (castBallot k now rq db)) = None) \/
  exists sid user g,
    rq = vote sid user g /\
    session_state k sid db = Some "pending_permission" /\
    ballot_counted k now sid user g db.
Proof.
  destruct (permission_request_cases rq) as [H|(sid & user & g & ->)].
  - left. rewrite (castBallot_incomplete k now rq db H). auto.
  - destruct (option_string_dec (session_state k sid db) "pending_permission")
      as [P|P].
    + right. exists sid, user, g. repeat split; trivial.
      all: apply (castBallot_pending k now sid user g db P).
    + left. apply (castBallot_not_pending k now sid user g db P).
Qed.

(** X4: A request or a ballot that is answered with an error leaves the whole
    database as it was, for either kind and whatever the body. *)
Theorem refused_changes_nothing k now rq ballot db :
  (request_status (fst (requestSession k now rq db)) <> 200 ->
   snd (requestSession k now rq db) = db) /\
  (ballot_status (fst (castBallot k now ballot db)) = None ->
   snd (castBallot k now ballot db) = db).
Proof.
  split.
  - destruct k; simpl; [unfold request_screen_share|unfold request_recording];
      destruct (roomId rq), (initiatorId rq); trivial;
      destruct (find_participant _ _ db) as [p|]; trivial.
    + destruct (existing_screen_share _ db); trivial.
      simpl. intros H. now elim H.
    + destruct (is_host p); trivial. cbn [negb].
      destruct (existing_recording _ db); trivial.
      simpl. intros H. now elim H.
  - destruct (castBallot_cases k now ballot db)
      as [[H _]|(sid & user & g & -> & _ & C)]; [auto|].
    destruct C as (_ & _ & Hres & _). rewrite Hres. discriminate.
Qed.

Lemma refused_changes_nothing_witness :
  snd (requestSession Recording 5 (ask 1 11) (asked Recording))
  = asked Recording.
Proof.
  apply (refused_changes_nothing Recording 5 (ask 1 11) (vote 100 11 true)
           (asked Recording)).
  vm_compute. discriminate.
Defined.

(** X5: Once a session has left [pending_permission], no sequence of ballots on
    it changes anything: its outcome, its ballots and the rest of the
    database stay as they are. *)
Theorem decided_session_is_final k now sid votes db :
  session_state k sid db <> Some "pending_permission" ->
  cast_each k now sid votes db = db.
Proof.
  intros H. induction votes as [|[v g] votes IH]; simpl; trivial.
  destruct (castBallot_not_pending k now sid v g db H) as [E _].
  rewrite E. exact IH.
Qed.

Lemma decided_session_is_final_witness :
  cast_each ScreenShare 9 100 [(10, false); (11, false)]
            (snd (castBallot ScreenShare 3 (vote 100 12 true)
                    (two_granted ScreenShare)))
  = snd (castBallot ScreenShare 3 (vote 100 12 true) (two_granted ScreenShare)).
Proof.
  apply (decided_session_is_final ScreenShare 9 100 [(10, false); (11, false)]).
  vm_compute. discriminate.
Defined.

Lemma ballot_key_set_granted g r : ballot_key (set_granted g r) = ballot_key r.
Proof. reflexivity. Qed.

Lemma upsert_keeps_unique now id session user g l :
  unique_ballots l -> unique_ballots (upsert now id session user g l).
Proof.
  unfold unique_ballots, upsert. intros Hnd.
  destruct (existsb (same_voter session user) l) eqn:E.
  - replace (map ballot_key (map _ l)) with (map ballot_key l); [exact Hnd|].
    rewrite map_map. apply map_ext. intros r.
    destruct (same_voter session user r); reflexivity.
  - rewrite map_app. simpl. apply NoDup_app; trivial.
    + repeat constructor. simpl. tauto.
    + intros key Hkey [<-|[]]. apply in_map_iff in Hkey.
      destruct Hkey as [r [Er Hr]].
      assert (existsb (same_voter session user) l = true); [|congruence].
      apply existsb_exists. exists r. split; [exact Hr|].
      unfold ballot_key in Er. simpl in Er. injection Er as E1 E2.
      unfold same_voter. rewrite E1, E2, !Nat.eqb_refl. reflexivity.
Qed.

(** X6: The handlers keep what the UNIQUE(session_id, user_id) constraint asks
    for: whatever the ballot request, a table that holds at most one ballot
    per session and voter still does afterwards. *)
Theorem ballots_stay_unique k now rq db :
  unique_ballots (permissions_of k db) ->
  unique_ballots (permissions_of k (snd (castBallot k now rq db))).
Proof.
  intros Hu.
  destruct (castBallot_cases k now rq db)
    as [[H _]|(sid & user & g & -> & _ & C)].
  - rewrite H. exact Hu.
  - destruct C as (Hperm & _). rewrite Hperm.
    apply upsert_keeps_unique, Hu.
Qed.

Lemma ballots_stay_unique_witness :
  unique_ballots
    (permissions_of Recording
       (snd (castBallot Recording 4 (vote 100 11 false)
               (two_granted Recording)))).
Proof.
  apply (ballots_stay_unique Recording 4 (vote 100 11 false)
           (two_granted Recording)).
  unfold unique_ballots. simpl.
  repeat constructor; simpl; intuition discriminate.
Defined.

End ConsensusMore.

Section BallotSequences.

Import Consensus Lifecycle.

Lemma online_now_stable k sid d db :
  participants d = participants db ->
  session_room k sid d = session_room k sid db ->
  online_now k sid d = online_now k sid db.
Proof.
  intros Hp Hr. unfold online_now. rewrite Hr.
  destruct (session_room k sid db); trivial.
  unfold online_participants. rewrite Hp. reflexivity.
Qed.

Lemma grant_step k now sid db d heard v :
  progress k sid db d heard -> ~ In v heard ->
  let d' := snd (castBallot k now (vote sid v true) d) in
  (S (List.length heard) <> List.length (online_now k sid db) ->
   progress k sid db d' (v :: heard)) /\
  (S (List.length heard) = List.length (online_now k sid db) ->
   session_state k sid d' = Some (active_status k)).
Proof.
  intros (Hst & Hp & Hr & Hlen & Hall & Hheard) Hv. cbn zeta.
  destruct (castBallot_pending k now sid v true d Hst)
    as (Hperm & Hp' & _ & Hr' & Hst').
  assert (Hnew : existsb (same_voter sid v) (permissions_of k d) = false).
  { destruct (existsb _ _) eqn:E; trivial. exfalso.
    apply existsb_exists in E. destruct E as [b [Hb Eb]].
    unfold same_voter in Eb. apply andb_prop in Eb. destruct Eb as [E1 E2].
    apply Nat.eqb_eq in E1, E2. apply Hv. rewrite <- E2. auto. }
  assert (Hb : ballots sid (upsert now (next_uuid d) sid v true
                                   (permissions_of k d))
               = recorded_ballots k sid d
                 ++ [{| perm_id := next_uuid d; perm_session_id := sid;
                        perm_user_id := v; perm_granted := true;
                        granted_at := now |}]).
  { unfold upsert. rewrite Hnew, ballots_app. simpl.
    rewrite Nat.eqb_refl. reflexivity. }
  rewrite Hb in Hst'.
  rewrite (online_now_stable k sid d db Hp Hr) in Hst'.
  rewrite length_app, Hlen in Hst'. simpl in Hst'.
  replace (List.length heard + 1) with (S (List.length heard)) in Hst' by lia.
  assert (Hall' : allGranted (recorded_ballots k sid d ++
                    [{| perm_id := next_uuid d; perm_session_id := sid;
                        perm_user_id := v; perm_granted := true;
                        granted_at := now |}]) = true).
  { unfold allGranted. rewrite forallb_app. unfold allGranted in Hall.
    rewrite Hall. reflexivity. }
  rewrite Hall' in Hst'. unfold newStatus in Hst'.
  split; intros Hn.
  - apply Nat.eqb_neq in Hn. rewrite Hn in Hst'.
    repeat split.
    + exact Hst'.
    + congruence.
    + congruence.
    + unfold recorded_ballots. rewrite Hperm, Hb, length_app, Hlen.
      simpl. lia.
    + unfold recorded_ballots. rewrite Hperm, Hb. exact Hall'.
    + intros b Hin Hs. rewrite Hperm in Hin. unfold upsert in Hin.
      rewrite Hnew in Hin. apply in_app_or in Hin.
      destruct Hin as [Hin|[<-|[]]]; [right; auto | left; reflexivity].
  - apply Nat.eqb_eq in Hn. rewrite Hn in Hst'. exact Hst'.
Qed.

Lemma grants_in_progress k now sid db voters :
  forall d heard,
    progress k sid db d heard -> NoDup voters ->
    (forall v, In v voters -> ~ In v heard) ->
    List.length heard + List.length voters
    < List.length (online_now k sid db) ->
    progress k sid db (cast_all k now sid true voters d) (rev voters ++ heard).
Proof.
  induction voters as [|v voters IH]; simpl; intros d heard Hpr Hnd Hnew Hlt.
  - exact Hpr.
  - inversion Hnd as [|? ? Hv Hnd']; subst.
    destruct (grant_step k now sid db d heard v Hpr) as [Hstep _];
      [apply Hnew; now left|].
    rewrite <- app_assoc. simpl. apply IH; trivial.
    + apply Hstep. lia.
    + intros w Hw [<-|Hin]; [contradiction|]. apply (Hnew w); auto.
    + simpl. lia.
Qed.

(** X7: Unanimity as the handlers count it.  On a pending session without
    ballots, grants cast one after the other by as many distinct voters as
    participants are online in the room leave the session pending until the
    last one, which makes it active; the voters are any user identifiers,
    the handlers do not look them up among the participants. *)
Theorem grants_of_enough_voters_activate k now sid voters db :
  session_state k sid db = Some "pending_permission" ->
  recorded_ballots k sid db = [] ->
  NoDup voters -> voters <> [] ->
  List.length voters = List.length (online_now k sid db) ->
  session_state k sid (cast_all k now sid true voters db)
  = Some (active_status k) /\
  Forall (fun n => session_state k sid
                     (cast_all k now sid true (firstn n voters) db)
                   = Some "pending_permission")
         (seq 0 (List.length voters)).
Proof.
  intros Hst Hnone Hnd Hne Hlen.
  assert (Hstart : progress k sid db db []).
  { repeat split; trivial.
    - rewrite Hnone. reflexivity.
    - rewrite Hnone. reflexivity.
    - intros b Hb Hs.
      assert (Hin : In b (recorded_ballots k sid db)).
      { apply filter_In. split; [exact Hb|]. apply Nat.eqb_eq, Hs. }
      rewrite Hnone in Hin. contradiction. }
  split.
  - destruct (exists_last Hne) as (front & v & ->).
    unfold cast_all. rewrite fold_left_app. simpl.
    fold (cast_all k now sid true front db).
    apply NoDup_remove in Hnd. rewrite app_nil_r in Hnd.
    destruct Hnd as [Hnd Hv]. rewrite length_app in Hlen. simpl in Hlen.
    assert (Hpr : progress k sid db (cast_all k now sid true front db)
                    (rev front ++ [])).
    { apply grants_in_progress; trivial; simpl; [tauto | lia]. }
    rewrite app_nil_r in Hpr.
    apply (grant_step k now sid db _ (rev front) v Hpr).
    + rewrite <- in_rev. exact Hv.
    + rewrite length_rev. lia.
  - apply Forall_forall. intros n Hn. apply in_seq in Hn.
    assert (Hpr : progress k sid db
                    (cast_all k now sid true (firstn n voters) db)
                    (rev (firstn n voters) ++ [])).
    { apply grants_in_progress; trivial.
      - rewrite <- (firstn_skipn n voters) in Hnd.
        apply NoDup_app_remove_r in Hnd. exact Hnd.
      - simpl. tauto.
      - simpl. rewrite length_firstn. lia. }
    apply Hpr.
Qed.

Lemma grants_of_enough_voters_activate_witness :
  session_state Recording 100
    (cast_all Recording 7 100 true [55; 11; 77] (asked Recording))
  = Some "recording".
Proof.
  apply (grants_of_enough_voters_activate Recording 7 100 [55; 11; 77]
           (asked Recording)).
  - reflexivity.
  - reflexivity.
  - repeat constructor; simpl; intuition discriminate.
  - discriminate.
  - reflexivity.
Defined.

Lemma denial_stands k now sid denier v g d :
  v <> denier -> standing_denial k sid denier d ->
  standing_denial k sid denier (snd (castBallot k now (vote sid v g) d)).
Proof.
  intros Hv [Hst (b & Hb & Hu & Hg)].
  destruct (option_string_dec (session_state k sid d) "pending_permission")
    as [P|P].
  2:{ destruct (castBallot_not_pending k now sid v g d P) as [E _].
      rewrite E. split; eauto. }
  clear Hst.
  destruct (castBallot_pending k now sid v g d P)
    as (Hperm & _ & _ & _ & Hst').
  assert (Hb' : In b (ballots sid (upsert now (next_uuid d) sid v g
                                          (permissions_of k d)))).
  { apply filter_In in Hb. destruct Hb as [Hb Hs].
    apply filter_In. split; [|exact Hs]. unfold upsert.
    destruct (existsb _ _).
    - apply in_map_iff. exists b. split; [|exact Hb].
      unfold same_voter. rewrite Hu.
      replace (denier =? v) with false; [rewrite andb_false_r; reflexivity|].
      symmetry. apply Nat.eqb_neq. congruence.
    - apply in_or_app. left. exact Hb. }
  assert (Hall : allGranted (ballots sid (upsert now (next_uuid d) sid v g
                                                 (permissions_of k d))) = false).
  { destruct (allGranted _) eqn:E; trivial.
    rewrite allGranted_spec in E. rewrite (E b Hb') in Hg. discriminate. }
  split.
  - rewrite Hst', Hall. unfold newStatus.
    destruct (_ =? _); auto.
  - exists b. unfold recorded_ballots. rewrite Hperm. auto.
Qed.

(** X8: A denial that its voter does not take back is a veto: whatever the
    other voters cast afterwards, the session never becomes active; it stays
    pending or is cancelled. *)
Theorem standing_denial_vetoes k now sid denier votes db :
  ~ In denier (map fst votes) ->
  standing_denial k sid denier db ->
  session_state k sid (cast_each k now sid votes db)
  = Some "pending_permission" \/
  session_state k sid (cast_each k now sid votes db) = Some "cancelled".
Proof.
  revert db. induction votes as [|[v g] votes IH]; simpl; intros db Hn Hd.
  - apply Hd.
  - apply IH; [tauto|]. apply denial_stands; [|exact Hd].
    intros ->. apply Hn. now left.
Qed.

Lemma standing_denial_vetoes_witness :
  session_state ScreenShare 100
    (cast_each ScreenShare 9 100 [(10, true); (11, true)]
               (snd (castBallot ScreenShare 1 (vote 100 12 false)
                       (asked ScreenShare))))
  = Some "pending_permission" \/
  session_state ScreenShare 100
    (cast_each ScreenShare 9 100 [(10, true); (11, true)]
               (snd (castBallot ScreenShare 1 (vote 100 12 false)
                       (asked ScreenShare))))
  = Some "cancelled".
Proof.
  apply (standing_denial_vetoes ScreenShare 9 100 12 [(10, true); (11, true)]).
  - simpl. intuition discriminate.
  - split; [left; reflexivity|].
    eexists. split; [left; reflexivity|]. split; reflexivity.
Defined.

End BallotSequences.

Section SessionIsolation.

Import Consensus Lifecycle.

Lemma filter_other_key {A : Type} (key : A -> uuid) (f : A -> A) sid sid' l :
  sid' <> sid -> (forall a, key (f a) = key a) ->
  filter (fun a => key a =? sid')
         (map (fun a => if key a =? sid then f a else a) l)
  = filter (fun a => key a =? sid') l.
Proof.
  intros Hne Hkey. induction l as [|a l IH]; simpl; trivial.
  destruct (key a =? sid) eqn:E.
  - rewrite Hkey. apply Nat.eqb_eq in E.
    replace (key a =? sid') with false; [exact IH|].
    symmetry. apply Nat.eqb_neq. congruence.
  - destruct (key a =? sid'); rewrite IH; reflexivity.
Qed.

Lemma ballots_upsert_other now id sid sid' user g l :
  sid' <> sid ->
  ballots sid' (upsert now id sid user g l) = ballots sid' l.
Proof.
  intros Hne. unfold upsert. destruct (existsb _ l).
  - induction l as [|r l IH]; simpl; trivial.
    destruct (same_voter sid user r) eqn:E; simpl.
    + unfold same_voter in E. apply andb_prop in E. destruct E as [E _].
      apply Nat.eqb_eq in E.
      replace (perm_session_id r =? sid') with false; [exact IH|].
      symmetry. apply Nat.eqb_neq. congruence.
    + destruct (perm_session_id r =? sid'); rewrite IH; reflexivity.
  - rewrite ballots_app. simpl.
    replace (sid =? sid') with false; [apply app_nil_r|].
    symmetry. apply Nat.eqb_neq. congruence.
Qed.

(** X10: A ballot reaches the session it names and nothing else: the
    participants, every session of the other kind and every other session of
    the same kind keep their state and their ballots. *)
Theorem ballot_touches_one_session k now sid user g k' s db :
  k' <> k \/ s <> sid ->
  let d := snd (castBallot k now (vote sid user g) db) in
  participants d = participants db /\
  session_state k' s d = session_state k' s db /\
  recorded_ballots k' s d = recorded_ballots k' s db.
Proof.
  intros Hother. cbn zeta.
  destruct (option_string_dec (session_state k sid db) "pending_permission")
    as [P|P].
  2:{ destruct (castBallot_not_pending k now sid user g db P) as [E _].
      rewrite E. auto. }
  split; [apply (castBallot_pending k now sid user g db P)|].
  destruct k; simpl in P |- *.
  - unfold screen_share_status in P.
    destruct (find_screen_share sid db) as [session|] eqn:F; [|discriminate].
    unfold screen_share_permission. cbn [vote sessionId userId granted].
    rewrite F, P, String.eqb_refl. cbn [negb]. cbv zeta.
    destruct (newStatus _ _ _ _) as [v|]; cbn [snd];
      destruct k'; unfold session_state, recorded_ballots, permissions_of,
        screen_share_status, recording_status, find_screen_share,
        find_recording;
      cbn [webrtc_sessions recording_sessions screen_share_permissions
           recording_permissions set_webrtc_sessions
           set_screen_share_permissions];
      try (split; reflexivity);
      (destruct Hother as [H|H]; [now elim H|]);
      rewrite ?(filter_other_key ws_id _ sid s) by (trivial; reflexivity);
      rewrite (ballots_upsert_other _ _ sid s) by trivial;
      split; reflexivity.
  - unfold recording_status in P.
    destruct (find_recording sid db) as [session|] eqn:F; [|discriminate].
    injection P as P.
    unfold recording_permission. cbn [vote sessionId userId granted].
    rewrite F, P, String.eqb_refl. cbn [negb]. cbv zeta.
    destruct (newStatus _ _ _ _) as [v|]; cbn [snd];
      destruct k'; unfold session_state, recorded_ballots, permissions_of,
        screen_share_status, recording_status, find_screen_share,
        find_recording;
      cbn [webrtc_sessions recording_sessions screen_share_permissions
           recording_permissions set_recording_sessions
           set_recording_permissions];
      try (split; reflexivity);
      (destruct Hother as [H|H]; [now elim H|]);
      rewrite ?(filter_other_key rs_id _ sid s) by (trivial; reflexivity);
      rewrite (ballots_upsert_other _ _ sid s) by trivial;
      split; reflexivity.
Qed.

Lemma ballot_touches_one_session_witness :
  session_state ScreenShare 100
    (snd (castBallot ScreenShare 6 (vote 103 11 false)
            (snd (requestSession ScreenShare 5 (ask 1 11) (two_granted ScreenShare)))))
  = session_state ScreenShare 100
      (snd (requestSession ScreenShare 5 (ask 1 11) (two_granted ScreenShare))).
Proof.
  apply (ballot_touches_one_session ScreenShare 6 103 11 false ScreenShare 100
           (snd (requestSession ScreenShare 5 (ask 1 11)
                   (two_granted ScreenShare)))).
  right. discriminate.
Defined.

End SessionIsolation.

(** ** Stopping a recording *)

Section RecordingLifecycle.

Import Consensus Lifecycle.

Lemma stop_recording_cases now rq db :
  (snd (stop_recording now rq db) = db /\
   stop_status (fst (stop_recording now rq db)) <> 200) \/
  exists sid user session,
    recordingSessionId rq = Some sid /\ requesterId rq = Some user /\
    find_recording sid db = Some session /\
    canStop session user db = true /\
    rs_status session = "recording" /\
    stop_recording now rq db
    = (Stopped sid match fileUrl rq with
                   | Some _ => "completed"
                   | None => "failed"
                   end,
       set_recording_sessions db
         (map (fun s => if rs_id s =? sid
                        then end_recording now
                               match fileUrl rq with
                               | Some _ => "completed"
                               | None => "failed"
                               end s
                        else s) (recording_sessions db))
         (next_uuid db)).
Proof.
  unfold stop_recording.
  destruct (recordingSessionId rq) as [sid|]; [|left; split; [reflexivity|discriminate]].
  destruct (requesterId rq) as [user|]; [|left; split; [reflexivity|discriminate]].
  destruct (find_recording sid db) as [session|] eqn:F;
    [|left; split; [reflexivity|discriminate]].
  destruct (canStop session user db) eqn:C; cbn [negb];
    [|left; split; [reflexivity|discriminate]].
  destruct (rs_status session =? "recording")%string eqn:St; cbn [negb];
    [|left; split; [reflexivity|discriminate]].
  apply String.eqb_eq in St.
  right. exists sid, user, session. repeat split; trivial.
Qed.

Lemma stopped_status_closed (url : option string) :
  in_values match url with Some _ => "completed" | None => "failed" end
            ["recording"; "pending_permission"] = false.
Proof. destruct url; reflexivity. Qed.

Lemma found_recording_id sid db session :
  find_recording sid db = Some session ->
  In session (recording_sessions db) /\ rs_id session = sid.
Proof.
  intros F. apply single_inv in F.
  assert (H : In session (filter (fun s => rs_id s =? sid)
                                 (recording_sessions db)))
    by (rewrite F; now left).
  apply filter_In in H. destruct H as [H E]. apply Nat.eqb_eq in E. auto.
Qed.

Lemma one_open_recording_after_stop now rq db :
  one_open_session Recording db ->
  one_open_session Recording (snd (stop_recording now rq db)).
Proof.
  intros Hone room.
  destruct (stop_recording_cases now rq db)
    as [[E _]|(sid & user & session & _ & _ & _ & _ & _ & E)];
    rewrite E; [apply Hone|].
  cbn [snd]. specialize (Hone room). rewrite open_recordings_views in *.
  eapply Nat.le_trans; [|exact Hone]. unfold open_recordings.
  cbn [recording_sessions set_recording_sessions].
  apply filter_map_shrinks. intros x _.
  destruct (rs_id x =? sid); trivial.
  cbn [end_recording rs_room_id rs_status].
  rewrite stopped_status_closed, andb_false_r. discriminate.
Qed.

(** X11: Requests, ballots, stops and presence changes made one after the other
    never let a room hold two recording sessions that are pending or
    recording. *)
Theorem recordings_stay_exclusive steps db :
  one_open_session Recording db ->
  one_open_session Recording (run_recording_steps steps db).
Proof.
  revert db. induction steps as [|st steps IH]; simpl; intros db H; trivial.
  apply IH. destruct st as [now rq|now rq|now rq|user online]; simpl.
  - apply (one_open_recording_after_request now rq db H).
  - apply (one_open_recording_after_ballot now rq db H).
  - apply one_open_recording_after_stop, H.
  - exact H.
Qed.

Lemma recordings_stay_exclusive_witness :
  one_open_session Recording
    (run_recording_steps
       [AskRecording 0 (ask 1 10); VoteRecording 1 (vote 100 10 true);
        Presence 12 false; VoteRecording 2 (vote 100 11 true);
        AskRecording 3 (ask 1 10); StopRecording 4 panel_stop;
        AskRecording 5 (ask 1 10)]
       room_of_three).
Proof.
  apply (recordings_stay_exclusive
           [AskRecording 0 (ask 1 10); VoteRecording 1 (vote 100 10 true);
            Presence 12 false; VoteRecording 2 (vote 100 11 true);
            AskRecording 3 (ask 1 10); StopRecording 4 panel_stop;
            AskRecording 5 (ask 1 10)] room_of_three).
  intros room. simpl. lia.
Defined.

(** X12: Only a session in state [recording] can be stopped: on any other
    session, pending ones included, the stop request is refused and changes
    nothing, whoever sends it. *)
Theorem stop_needs_a_running_recording now rq sid db :
  recordingSessionId rq = Some sid ->
  recording_status sid db <> Some "recording" ->
  snd (stop_recording now rq db) = db /\
  In (stop_status (fst (stop_recording now rq db))) [400; 403; 404].
Proof.
  intros Hsid Hst. unfold stop_recording. rewrite Hsid.
  destruct (requesterId rq) as [user|]; [|simpl; auto].
  unfold recording_status in Hst.
  destruct (find_recording sid db) as [session|]; [|simpl; auto].
  destruct (canStop session user db); cbn [negb]; [|simpl; auto].
  destruct (rs_status session =? "recording")%string eqn:E; cbn [negb];
    [|simpl; auto].
  apply String.eqb_eq in E. rewrite E in Hst. now elim Hst.
Qed.

Lemma stop_needs_a_running_recording_witness :
  snd (stop_recording 4 panel_stop (asked Recording)) = asked Recording.
Proof.
  apply (stop_needs_a_running_recording 4 panel_stop 100 (asked Recording)).
  - reflexivity.
  - vm_compute. discriminate.
Defined.

(** X13: A stop that succeeds ends the session for good and frees its room: the
    session becomes [completed] when a file is given and [failed] otherwise,
    the room is left without a pending or running recording, and the next
    request of the room's host is accepted. *)
Theorem stop_frees_the_room now rq db sid status now' host p :
  one_open_session Recording db ->
  fst (stop_recording now rq db) = Stopped sid status ->
  let d := snd (stop_recording now rq db) in
  status = match fileUrl rq with Some _ => "completed" | None => "failed" end /\
  recording_status sid d = Some status /\
  exists room,
    session_room Recording sid db = Some room /\
    open_sessions Recording room d = [] /\
    (find_participant room host db = Some p -> is_host p = true ->
     fst (requestSession Recording now' (ask room host) d)
     = RequestSent (next_uuid db) (snapshot_of (online_participants room db))).
Proof.
  intros Hone Hres. cbn zeta.
  destruct (stop_recording_cases now rq db)
    as [[_ N]|(sid' & user & session & _ & _ & F & _ & St & E)].
  { rewrite Hres in N. now elim N. }
  rewrite E in Hres |- *. cbn [fst snd] in *.
  injection Hres as <- <-.
  destruct (found_recording_id _ _ _ F) as [Hin Hid].
  split; [reflexivity|]. split.
  - unfold recording_status, find_recording.
    cbn [recording_sessions set_recording_sessions].
    rewrite (single_filter_map rs_id _ sid' (recording_sessions db) session);
      [reflexivity | reflexivity | exact F].
  - exists (rs_room_id session).
    assert (Hopen : open_recordings (rs_room_id session)
                      (set_recording_sessions db
                         (map (fun s => if rs_id s =? sid'
                                        then end_recording now
                                               match fileUrl rq with
                                               | Some _ => "completed"
                                               | None => "failed"
                                               end s
                                        else s) (recording_sessions db))
                         (next_uuid db)) = []).
    { unfold open_recordings.
      cbn [recording_sessions set_recording_sessions].
      apply filter_none. intros y Hy. apply in_map_iff in Hy.
      destruct Hy as [x [<- Hx]].
      destruct (rs_id x =? sid') eqn:Ex.
      - cbn [end_recording rs_room_id rs_status].
        rewrite stopped_status_closed. apply andb_false_r.
      - destruct ((rs_room_id x =? rs_room_id session) &&
                  in_values (rs_status x) ["recording"; "pending_permission"])
          eqn:Eo; trivial. exfalso.
        specialize (Hone (rs_room_id session)).
        rewrite open_recordings_views in Hone.
        assert (Hs : In session (open_recordings (rs_room_id session) db)).
        { apply filter_In. split; [exact Hin|].
          rewrite Nat.eqb_refl, St. reflexivity. }
        assert (Hx' : In x (open_recordings (rs_room_id session) db)).
        { apply filter_In. auto. }
        destruct (open_recordings (rs_room_id session) db) as [|a [|b l]];
          simpl in *; try contradiction; try lia.
        destruct Hs as [<-|[]], Hx' as [<-|[]].
        rewrite Hid, Nat.eqb_refl in Ex. discriminate. }
    split; [unfold find_recording in F; unfold session_room, find_recording;
            rewrite F; reflexivity|].
    split.
    + apply length_zero_nil. rewrite open_recordings_views, Hopen. reflexivity.
    + intros Hp Hh. simpl. unfold request_recording.
      cbn [ask roomId initiatorId].
      replace (find_participant (rs_room_id session) host _) with (Some p).
      rewrite Hh. cbn [negb]. unfold existing_recording. rewrite Hopen.
      reflexivity.
Qed.

Lemma stop_frees_the_room_witness :
  "failed" = match fileUrl panel_stop with
             | Some _ => "completed"
             | None => "failed"
             end /\
  recording_status 100 (snd (stop_recording 4 panel_stop recording_started))
  = Some "failed".
Proof.
  pose proof (stop_frees_the_room 4 panel_stop recording_started 100 "failed"
                5 10 (participant 1 10 "A" true)) as W.
  cbn zeta in W. destruct W as (W1 & W2 & _).
  - intros room. rewrite open_recordings_views.
    destruct room as [|[|room]]; vm_compute; lia.
  - reflexivity.
  - split; [exact W1 | exact W2].
Defined.

End RecordingLifecycle.

(** ** Direct screen sharing *)

Section SharesFacts.

Import Shares.

Lemma end_share_inactive now room s : active_share room (end_share now s) = false.
Proof.
  unfold active_share, end_share. simpl. apply andb_false_r.
Qed.

Lemma own_is_active room user s :
  own_active_share room user s
  = active_share room s && (host_user_id s =? user).
Proof.
  unfold own_active_share, active_share.
  destruct (ws_room_id s =? room), (host_user_id s =? user),
    (session_type s =? "screen_share")%string, (Bool.eqb (is_active s) true);
    reflexivity.
Qed.

Lemma ended_own_shares now room user l :
  filter (own_active_share room user)
         (map (fun s => if own_active_share room user s
                        then end_share now s else s) l) = [].
Proof.
  apply filter_none. intros y Hy. apply in_map_iff in Hy.
  destruct Hy as [x [<- _]].
  destruct (own_active_share room user x) eqn:E; [|exact E].
  rewrite own_is_active, end_share_inactive. reflexivity.
Qed.

Lemma new_share_active dbNow id room user name room' :
  active_share room' (new_share dbNow id room user name) = (room =? room').
Proof.
  unfold active_share, new_share. simpl. rewrite !andb_true_r. reflexivity.
Qed.

Lemma set_same_sessions db :
  set_webrtc_sessions db (webrtc_sessions db) (next_uuid db) = db.
Proof. destruct db. reflexivity. Qed.

Lemma map_unchanged {A : Type} (P : A -> bool) (f : A -> A) l :
  filter P l = [] -> map (fun a => if P a then f a else a) l = l.
Proof.
  induction l as [|a l IH]; simpl; trivial.
  destruct (P a); [discriminate|]. intros H. rewrite IH; trivial.
Qed.

(** X14: A start that succeeds ends the shares the user already had in the room:
    afterwards the user's only active screen share there is the session just
    created, whose identifier is returned. *)
Theorem start_replaces_own_share now dbNow room user db id :
  fst (start_screen_share now dbNow (begin room user) db) = Started id ->
  map ws_id (filter (own_active_share room user)
               (webrtc_sessions
                  (snd (start_screen_share now dbNow (begin room user) db))))
  = [id] /\ id = next_uuid db.
Proof.
  unfold start_screen_share. cbn [begin start_roomId start_userId].
  destruct (Consensus.find_participant room user db) as [p|]; [|discriminate].
  destruct (match single _ with Some _ => _ | None => false end);
    [discriminate|].
  cbn [fst snd]. intros H. injection H as <-.
  cbn [webrtc_sessions set_webrtc_sessions].
  rewrite filter_app, ended_own_shares. cbn [app filter].
  unfold own_active_share at 1.
  cbn [new_share ws_room_id host_user_id session_type is_active ws_id].
  rewrite !Nat.eqb_refl. split; reflexivity.
Qed.

Lemma start_replaces_own_share_witness :
  map ws_id
    (filter (own_active_share 1 11)
       (webrtc_sessions
          (snd (start_screen_share 9 9 (begin 1 11)
                  (snd (start_screen_share 5 5 (begin 1 11)
                          Consensus.room_of_three))))))
  = [101] /\ 101 = 101.
Proof.
  apply (start_replaces_own_share 9 9 1 11
           (snd (start_screen_share 5 5 (begin 1 11) Consensus.room_of_three))
           101).
  reflexivity.
Defined.

(** X15: Starts and stops keep at most one active screen share per room: a start
    is refused with 409 while another user shares, and otherwise replaces
    the user's own share. *)
Theorem direct_sharing_stays_exclusive now dbNow start stop db :
  one_active_share db ->
  one_active_share (snd (start_screen_share now dbNow start db)) /\
  one_active_share (snd (stop_screen_share now stop db)).
Proof.
  intros Hone. split; intros room'.
  - unfold start_screen_share.
    destruct (start_roomId start) as [room|]; [|apply Hone].
    destruct (start_userId start) as [user|]; [|apply Hone].
    destruct (Consensus.find_participant room user db) as [p|]; [|apply Hone].
    destruct (match single _ with Some _ => _ | None => false end) eqn:C;
      [apply Hone|].
    cbn [snd webrtc_sessions set_webrtc_sessions].
    rewrite filter_app, length_app.
    destruct (room =? room') eqn:Er.
    + apply Nat.eqb_eq in Er. subst room'.
      replace (filter (active_share room) (map _ (webrtc_sessions db)))
        with (@nil webrtc_session_row);
        [cbn [filter]; rewrite new_share_active, Nat.eqb_refl; simpl; lia|].
      symmetry. apply filter_none. intros y Hy. apply in_map_iff in Hy.
      destruct Hy as [x [<- Hx]].
      destruct (own_active_share room user x) eqn:Eo;
        [apply end_share_inactive|].
      destruct (active_share room x) eqn:Ea; trivial. exfalso.
      specialize (Hone room).
      assert (Hin : In x (filter (active_share room) (webrtc_sessions db)))
        by (apply filter_In; auto).
      destruct (filter (active_share room) (webrtc_sessions db))
        as [|a [|b l]]; simpl in *; try contradiction; try lia.
      destruct Hin as [<-|[]]. apply negb_false_iff in C.
      rewrite own_is_active, Ea, C in Eo. discriminate.
    + eapply Nat.le_trans; [|apply (Hone room')].
      cbn [filter]. rewrite new_share_active, Er. simpl. rewrite Nat.add_0_r.
      apply filter_map_shrinks. intros x _.
      destruct (own_active_share room user x); trivial.
      rewrite end_share_inactive. discriminate.
  - unfold stop_screen_share.
    destruct (roomId stop) as [room|]; [|apply Hone].
    destruct (userId stop) as [user|]; [|apply Hone].
    cbv zeta.
    destruct (_ =? 0); cbn [snd webrtc_sessions set_webrtc_sessions];
      (eapply Nat.le_trans; [|apply (Hone room')]);
      apply filter_map_shrinks; intros x _;
      destruct (to_stop room user (sessionId stop) x); trivial;
      rewrite end_share_inactive; discriminate.
Qed.

Lemma direct_sharing_stays_exclusive_witness :
  one_active_share
    (snd (start_screen_share 5 5 (begin 1 11) Consensus.room_of_three)).
Proof.
  apply (direct_sharing_stays_exclusive 5 5 (begin 1 11) (finish 1 11)
           Consensus.room_of_three).
  intros room. simpl. lia.
Defined.

(** X16: A stop without a session identifier ends every active screen share of
    the user in the room, so that any further stop by that user in that room
    is answered 404 and changes nothing. *)
Theorem stop_then_stop now now' room user sid db :
  let d := snd (stop_screen_share now (finish room user) db) in
  filter (own_active_share room user) (webrtc_sessions d) = [] /\
  stop_screen_share now' {| roomId := Some room; userId := Some user;
                            sessionId := sid |} d
  = (StopFailure 404 "No active screen share session found", d).
Proof.
  cbn zeta.
  assert (Hnone : filter (own_active_share room user)
            (webrtc_sessions (snd (stop_screen_share now (finish room user) db)))
          = []).
  { unfold stop_screen_share. cbn [finish roomId userId sessionId]. cbv zeta.
    destruct (_ =? 0); cbn [snd webrtc_sessions set_webrtc_sessions];
      unfold to_stop;
      rewrite (map_ext _ (fun s => if own_active_share room user s
                                   then end_share now s else s))
        by (intros s; rewrite andb_true_r; reflexivity);
      apply ended_own_shares. }
  split; [exact Hnone|].
  set (d := snd (stop_screen_share now (finish room user) db)) in *.
  assert (Hstop : filter (to_stop room user sid) (webrtc_sessions d) = []).
  { apply filter_none. intros s Hs. unfold to_stop.
    destruct (own_active_share room user s) eqn:E; trivial. exfalso.
    assert (Hin : In s (filter (own_active_share room user) (webrtc_sessions d)))
      by (apply filter_In; auto).
    rewrite Hnone in Hin. contradiction. }
  unfold stop_screen_share. cbn [roomId userId sessionId]. cbv zeta.
  rewrite Hstop. simpl. rewrite (map_unchanged _ _ _ Hstop), set_same_sessions.
  reflexivity.
Qed.

(** X17: Nobody stops another user's share: a stop leaves every session of other
    users, and every session of other rooms, exactly as it was; the room's
    host has no override. *)
Theorem stop_is_scoped now room user sid db s :
  In s (webrtc_sessions db) ->
  host_user_id s <> user \/ ws_room_id s <> room ->
  In s (webrtc_sessions
          (snd (stop_screen_share now
                  {| roomId := Some room; userId := Some user;
                     sessionId := sid |} db))).
Proof.
  intros Hs Hother. unfold stop_screen_share. cbn [roomId userId sessionId].
  cbv zeta.
  assert (Hkeep : to_stop room user sid s = false).
  { unfold to_stop, own_active_share.
    destruct Hother as [H|H]; apply Nat.eqb_neq in H; rewrite H;
      rewrite ?andb_false_r; reflexivity. }
  destruct (_ =? 0); cbn [snd webrtc_sessions set_webrtc_sessions];
    apply in_map_iff; exists s; rewrite Hkeep; auto.
Qed.

Lemma stop_is_scoped_witness :
  In (new_share 5 100 1 11 "B")
     (webrtc_sessions
        (snd (stop_screen_share 7
                {| roomId := Some 1; userId := Some 10; sessionId := Some 100 |}
                (snd (start_screen_share 5 5 (begin 1 11)
                        Consensus.room_of_three))))).
Proof.
  apply (stop_is_scoped 7 1 10 (Some 100)
           (snd (start_screen_share 5 5 (begin 1 11) Consensus.room_of_three))
           (new_share 5 100 1 11 "B")).
  - left. reflexivity.
  - left. discriminate.
Defined.

End SharesFacts.

(** ** The panel: what follows an attempt *)

Section ReconnectionFacts.

Import Panel Reconnection.

Lemma stop_keeps_calls r p :
  getDisplayMediaCalls (handleStopScreenShare r p) = getDisplayMediaCalls p.
Proof.
  unfold handleStopScreenShare. cbn [reconnectTimeoutRef set_isUserStoppedRef].
  destruct (reconnectTimeoutRef p); destruct (streamEndedHandlerRef _);
    destruct (currentScreenShareSessionId r); reflexivity.
Qed.

(** X18: When [getDisplayMedia] is refused by the user ([NotAllowedError]) the
    attempt is the last: the share is torn down, no timer is added and the
    one the panel holds is cleared. *)
Theorem denied_permission_is_terminal r rest p :
  take_display_media (awaiting p) = Some (r, rest) ->
  let q := step (DisplayMediaRejects "NotAllowedError") p in
  Forall (fun t => In t (timers p) /\ reconnectTimeoutRef p <> Some (timer_id t))
         (timers q) /\
  localStreamRef q = None /\ reconnectTimeoutRef q = None /\
  getDisplayMediaCalls q = getDisplayMediaCalls p /\
  In failed (statuses q).
Proof.
  intros Ht. cbn zeta. unfold step. rewrite Ht. unfold reconnect_rejected.
  cbn [String.eqb Ascii.eqb Bool.eqb andb]. 
  set (p' := setConnectionStatus failed _).
  pose proof (stop_tears_down r p') as T. cbn zeta in T.
  destruct T as (T1 & _ & T3 & _ & T5 & _).
  split; [|split; [exact T1|split; [exact T3|split]]].
  - apply Forall_forall. intros t Hin.
    apply (stop_clears_held_timer r p' t Hin).
  - rewrite stop_keeps_calls. reflexivity.
  - rewrite T5. destruct (currentScreenShareSessionId r); simpl; auto.
Qed.

Lemma denied_permission_is_terminal_witness :
  localStreamRef (step (DisplayMediaRejects "NotAllowedError") first_attempt)
  = None.
Proof.
  apply (denied_permission_is_terminal sharing_render [] first_attempt).
  reflexivity.
Defined.

Lemma find_fresh_timer t l n :
  Forall (fun x => timer_id x < n) l -> timer_id t = n ->
  find (fun x => timer_id x =? n) (l ++ [t]) = Some t.
Proof.
  intros Hf Ht. induction l as [|a l IH]; simpl.
  - rewrite Ht, Nat.eqb_refl. reflexivity.
  - inversion Hf as [|? ? Ha Hl]; subst.
    replace (timer_id a =? timer_id t) with false; [apply IH, Hl|].
    symmetry. apply Nat.eqb_neq. lia.
Qed.

Lemma filter_fresh_timer t l n :
  Forall (fun x => timer_id x < n) l -> timer_id t = n ->
  filter (fun x => negb (timer_id x =? n)) (l ++ [t]) = l.
Proof.
  intros Hf Ht. rewrite filter_app. simpl. rewrite Ht, Nat.eqb_refl. simpl.
  rewrite app_nil_r. apply forallb_filter_id. apply forallb_forall.
  intros x Hx. rewrite Forall_forall in Hf. apply Hf in Hx.
  apply negb_true_iff, Nat.eqb_neq. lia.
Qed.

(** What the panel looks like while one attempt is waiting. *)
Lemma retry_cycle_step errorName r p :
  errorName <> "NotAllowedError" -> reconnectAttemptsRef p < 3 ->
  awaiting p = [DisplayMedia r] -> timers_fresh p ->
  let q := retry_cycle errorName p in
  reconnectAttemptsRef q = reconnectAttemptsRef p /\
  awaiting q = [DisplayMedia r] /\ timers_fresh q /\
  getDisplayMediaCalls q = S (getDisplayMediaCalls p) /\
  timers q = timers p.
Proof.
  intros Herr Hlt Haw Hfresh. cbn zeta. unfold retry_cycle.
  apply String.eqb_neq in Herr.
  assert (E : (reconnectAttemptsRef p <? maxReconnectAttempts) = true)
    by (apply Nat.ltb_lt; exact Hlt).
  assert (Hrej : step (DisplayMediaRejects errorName) p
                 = snd (setTimeout (Reconnect r) 5000
                          (setConnectionStatus failed
                             (set_awaiting [] (getDisplayMediaCalls p) p)))).
  { unfold step. rewrite Haw. cbn [take_display_media].
    unfold reconnect_rejected. rewrite Herr.
    cbn [reconnectAttemptsRef setConnectionStatus set_awaiting].
    rewrite E. reflexivity. }
  rewrite Hrej. unfold step.
  cbn [setTimeout snd timers set_timers setConnectionStatus set_awaiting
       next_timer].
  rewrite (find_fresh_timer
             {| timer_id := next_timer p; delay := 5000;
                callback_of := Reconnect r |} (timers p) (next_timer p)
             Hfresh eq_refl).
  cbn [callback_of]. unfold handleReconnectScreenShare, clearTimeout.
  cbn [timers set_timers setConnectionStatus set_awaiting next_timer awaiting
       getDisplayMediaCalls reconnectAttemptsRef].
  rewrite (filter_fresh_timer
             {| timer_id := next_timer p; delay := 5000;
                callback_of := Reconnect r |} (timers p) (next_timer p)
             Hfresh eq_refl).
  repeat split. unfold timers_fresh. cbn [timers next_timer].
  eapply Forall_impl; [|exact Hfresh]. simpl. intros; lia.
Qed.

(** X19: A failed attempt does not use up the budget of three: after an error
    other than a refusal the count stays where it was and a retry follows
    5 seconds later, so that attempts that keep failing are repeated without
    end. *)
Theorem failed_attempts_retry_forever n errorName r p :
  errorName <> "NotAllowedError" -> reconnectAttemptsRef p < 3 ->
  awaiting p = [DisplayMedia r] -> timers_fresh p ->
  let q := Nat.iter n (retry_cycle errorName) p in
  getDisplayMediaCalls q = getDisplayMediaCalls p + n /\
  reconnectAttemptsRef q = reconnectAttemptsRef p /\
  awaiting q = [DisplayMedia r].
Proof.
  intros Herr Hlt Haw Hfresh. cbn zeta.
  assert (H : getDisplayMediaCalls (Nat.iter n (retry_cycle errorName) p)
              = getDisplayMediaCalls p + n /\
              reconnectAttemptsRef (Nat.iter n (retry_cycle errorName) p)
              = reconnectAttemptsRef p /\
              awaiting (Nat.iter n (retry_cycle errorName) p)
              = [DisplayMedia r] /\
              timers_fresh (Nat.iter n (retry_cycle errorName) p)).
  { induction n as [|n IH]; simpl.
    - split; [lia|]. split; [reflexivity|]. split; assumption.
    - destruct IH as (Hc & Ha & Hw & Hf).
      assert (Hlt' : reconnectAttemptsRef
                       (Nat.iter n (retry_cycle errorName) p) < 3) by lia.
      destruct (retry_cycle_step errorName r
                  (Nat.iter n (retry_cycle errorName) p) Herr Hlt' Hw Hf)
        as (Ha' & Hw' & Hf' & Hc' & _).
      split; [lia|]. split; [congruence|]. split; assumption. }
  tauto.
Qed.

Lemma failed_attempts_retry_forever_witness :
  getDisplayMediaCalls (Nat.iter 10 (retry_cycle "AbortError") first_attempt)
  = getDisplayMediaCalls first_attempt + 10.
Proof.
  apply (failed_attempts_retry_forever 10 "AbortError" sharing_render
           first_attempt).
  - discriminate.
  - simpl. lia.
  - reflexivity.
  - constructor.
Defined.

(** X20: A successful attempt starts the backoff afresh: the new stream gets the
    handler, the count returns to 0, and when that stream ends in turn the
    next attempt is scheduled after 2 seconds, whatever the count was. *)
Theorem success_restarts_backoff r rest stream p :
  take_display_media (awaiting p) = Some (r, rest) ->
  isUserStoppedRef p = false -> isScreenSharing r = true ->
  Forall (fun l => fst l <> stream) (listeners p) ->
  let q := step (DisplayMediaResolves stream) p in
  connectionStatus q = connected /\ reconnectAttemptsRef q = 0 /\
  localStreamRef q = Some stream /\
  timers (step (TrackEnded stream) q)
  = timers p ++ [{| timer_id := next_timer p; delay := 2000;
                    callback_of := Reconnect r |}] /\
  reconnectAttemptsRef (step (TrackEnded stream) q) = 1.
Proof.
  intros Ht Hflag Hr Hl. cbn zeta.
  assert (Hres : step (DisplayMediaResolves stream) p
                 = reconnect_resolved r stream
                     (set_awaiting rest (getDisplayMediaCalls p) p)).
  { unfold step. rewrite Ht. reflexivity. }
  rewrite Hres. unfold reconnect_resolved, setupStreamEndedHandler.
  repeat (split; [reflexivity|]).
  unfold step.
  cbn [listeners set_listeners setConnectionStatus set_reconnectAttemptsRef
       set_streamEndedHandlerRef set_localStreamRef set_awaiting].
  assert (Hfind : find (fun l => fst l =? stream) (listeners p ++ [(stream, r)])
                  = Some (stream, r)).
  { clear -Hl. induction (listeners p) as [|a l IH]; simpl.
    - rewrite Nat.eqb_refl. reflexivity.
    - inversion Hl as [|? ? Ha Hl']; subst.
      apply Nat.eqb_neq in Ha. rewrite Ha. apply IH, Hl'. }
  rewrite Hfind. unfold handleEnded.
  cbn [isUserStoppedRef reconnectAttemptsRef setConnectionStatus
       set_reconnectAttemptsRef set_streamEndedHandlerRef set_listeners
       set_localStreamRef set_awaiting].
  rewrite Hflag, Hr. split; reflexivity.
Qed.

Lemma success_restarts_backoff_witness :
  reconnectAttemptsRef
    (step (TrackEnded 2) (step (DisplayMediaResolves 2) first_attempt)) = 1.
Proof.
  apply (success_restarts_backoff sharing_render [] 2 first_attempt).
  - reflexivity.
  - reflexivity.
  - reflexivity.
  - repeat constructor. simpl. discriminate.
Defined.

Lemma latest_after_spec updated :
  forall latestTime next,
    (latest_after latestTime next updated = next /\
     Forall (fun e => (startedAt (snd e) <= latestTime)%Z) updated) \/
    exists user session,
      In (user, session) updated /\
      latest_after latestTime next updated = Some user /\
      (latestTime < startedAt session)%Z /\
      Forall (fun e => (startedAt (snd e) <= startedAt session)%Z) updated.
Proof.
  induction updated as [|[user session] rest IH]; simpl; intros T next.
  - left. split; [reflexivity | constructor].
  - destruct (T <? startedAt session)%Z eqn:E.
    + apply Z.ltb_lt in E. right.
      destruct (IH (startedAt session) (Some user))
        as [[Hr Hall]|(u & s & Hin & Hr & Hlt & Hall)].
      * exists user, session. repeat split; auto. constructor; [simpl; lia|].
        exact Hall.
      * exists u, s. repeat split; auto; [lia|].
        constructor; [simpl; lia | exact Hall].
    + apply Z.ltb_ge in E.
      destruct (IH T next) as [[Hr Hall]|(u & s & Hin & Hr & Hlt & Hall)].
      * left. split; [exact Hr|]. constructor; [simpl; lia | exact Hall].
      * right. exists u, s. repeat split; auto.
        constructor; [simpl; lia | exact Hall].
Qed.

(** X21: When the share that stops is the one shown as most recent, the share
    shown next is, among those that remain, one started last; none is shown
    only when none remains. *)
Theorem next_most_recent_is_latest stopped recent active :
  snd (remove_session stopped active) = recent ->
  let left := fst (onScreenShareStopped stopped recent active) in
  match snd (onScreenShareStopped stopped recent active) with
  | Some user =>
      exists session,
        In (user, session) left /\
        Forall (fun e => (startedAt (snd e) <= startedAt session)%Z) left
  | None => Forall (fun e => (startedAt (snd e) <= 0)%Z) left
  end.
Proof.
  intros Hrec. cbn zeta. unfold onScreenShareStopped.
  destruct (remove_session stopped active) as [updated removed].
  simpl in Hrec. subst recent. cbn [fst snd].
  assert (Hsame : same_user removed removed = true)
    by (destruct removed; simpl; [apply Nat.eqb_refl | reflexivity]).
  rewrite Hsame.
  destruct (latest_after_spec updated 0%Z None)
    as [[Hr Hall]|(u & s & Hin & Hr & _ & Hall)]; rewrite Hr.
  - exact Hall.
  - exists s. auto.
Qed.

Lemma next_most_recent_is_latest_witness :
  match snd (onScreenShareStopped 501 (Some 11) three_shares) with
  | Some user =>
      exists session,
        In (user, session)
           (fst (onScreenShareStopped 501 (Some 11) three_shares)) /\
        Forall (fun e => (startedAt (snd e) <= startedAt session)%Z)
               (fst (onScreenShareStopped 501 (Some 11) three_shares))
  | None => Forall (fun e => (startedAt (snd e) <= 0)%Z)
                   (fst (onScreenShareStopped 501 (Some 11) three_shares))
  end.
Proof.
  apply (next_most_recent_is_latest 501 (Some 11) three_shares).
  reflexivity.
Defined.

End ReconnectionFacts.

(** ** Peer connections *)

Section SignalingFacts.

Import Signaling.

Lemma map_get_set_same {V : Type} key (value : V) m :
  map_get key (map_set key value m) = Some value.
Proof.
  induction m as [|[k v] m IH]; simpl.
  - rewrite Nat.eqb_refl. reflexivity.
  - destruct (k =? key) eqn:E; simpl; rewrite E; [reflexivity | exact IH].
Qed.

Lemma map_get_set_other {V : Type} key other (value : V) m :
  other <> key -> map_get other (map_set key value m) = map_get other m.
Proof.
  intros Hne. induction m as [|[k v] m IH]; simpl.
  - replace (key =? other) with false; [reflexivity|].
    symmetry. apply Nat.eqb_neq. congruence.
  - destruct (k =? key) eqn:E; simpl.
    + apply Nat.eqb_eq in E. subst k.
      replace (key =? other) with false; [reflexivity|].
      symmetry. apply Nat.eqb_neq. congruence.
    + destruct (k =? other); [reflexivity | exact IH].
Qed.

Lemma map_get_delete_same {V : Type} key (m : list (uuid * V)) :
  map_get key (map_delete key m) = None.
Proof.
  induction m as [|[k v] m IH]; simpl; trivial.
  destruct (k =? key) eqn:E; simpl; [exact IH|]. rewrite E. exact IH.
Qed.

Lemma map_get_delete_other {V : Type} key other (m : list (uuid * V)) :
  other <> key -> map_get other (map_delete key m) = map_get other m.
Proof.
  intros Hne. induction m as [|[k v] m IH]; simpl; trivial.
  destruct (k =? key) eqn:E; simpl.
  - apply Nat.eqb_eq in E. subst k.
    replace (key =? other) with false; [exact IH|].
    symmetry. apply Nat.eqb_neq. congruence.
  - destruct (k =? other); [reflexivity | exact IH].
Qed.

Lemma failure_counts userId m n :
  match map_get userId (reconnectAttempts m) with
  | Some a => a
  | None => 0
  end = n -> n < 3 ->
  let m' := handleConnectionFailure userId m in
  map_get userId (reconnectAttempts m') = Some (S n) /\
  pending m' = pending m ++ [((2000 * Z.of_nat (S n))%Z, userId)] /\
  peerConnections m' = peerConnections m /\
  (forall other, other <> userId ->
     map_get other (reconnectAttempts m') = map_get other (reconnectAttempts m)).
Proof.
  intros Hn Hlt. cbn zeta. unfold handleConnectionFailure. rewrite Hn.
  assert (E : (n <? maxReconnectAttempts) = true) by (apply Nat.ltb_lt; exact Hlt).
  rewrite E. cbn [reconnectAttempts pending peerConnections].
  replace (n + 1) with (S n) by lia.
  repeat split.
  - apply map_get_set_same.
  - intros other Hne. apply map_get_set_other, Hne.
Qed.

(** X22: The connection to a peer that keeps failing is retried three times,
    after 2, 4 and 6 seconds; the fourth failure drops the connection and
    forgets the count, so that a later failure starts again at 2 seconds.
    The counts and connections of the other peers are not touched. *)
Theorem connection_failures_back_off userId m :
  map_get userId (reconnectAttempts m) = None ->
  let m3 := Nat.iter 3 (handleConnectionFailure userId) m in
  let m4 := handleConnectionFailure userId m3 in
  pending m3 = pending m ++ [(2000%Z, userId); (4000%Z, userId);
                             (6000%Z, userId)] /\
  pending m4 = pending m3 /\
  map_get userId (reconnectAttempts m4) = None /\
  map_get userId (peerConnections m4) = None /\
  pending (handleConnectionFailure userId m4)
  = pending m3 ++ [(2000%Z, userId)] /\
  (forall other, other <> userId ->
     map_get other (reconnectAttempts m4) = map_get other (reconnectAttempts m) /\
     map_get other (peerConnections m4) = map_get other (peerConnections m)).
Proof.
  intros Hnone. cbn zeta.
  change (Nat.iter 3 (handleConnectionFailure userId) m)
    with (handleConnectionFailure userId
            (handleConnectionFailure userId
               (handleConnectionFailure userId m))).
  set (m1 := handleConnectionFailure userId m).
  destruct (failure_counts userId m 0) as (G1 & P1 & C1 & O1);
    [rewrite Hnone; reflexivity | lia |]. fold m1 in G1, P1, C1, O1.
  set (m2 := handleConnectionFailure userId m1).
  destruct (failure_counts userId m1 1) as (G2 & P2 & C2 & O2);
    [rewrite G1; reflexivity | lia |]. fold m2 in G2, P2, C2, O2.
  set (m3 := handleConnectionFailure userId m2).
  destruct (failure_counts userId m2 2) as (G3 & P3 & C3 & O3);
    [rewrite G2; reflexivity | lia |]. fold m3 in G3, P3, C3, O3.
  assert (H4 : handleConnectionFailure userId m3
               = {| localStream := localStream m3;
                    peerConnections := map_delete userId (peerConnections m3);
                    reconnectAttempts :=
                      map_delete userId (reconnectAttempts m3);
                    pending := pending m3; sent := sent m3;
                    created := created m3 |}).
  { unfold handleConnectionFailure at 1. rewrite G3. reflexivity. }
  rewrite H4. cbn [pending reconnectAttempts peerConnections].
  split; [rewrite P3, P2, P1, <- !app_assoc; reflexivity|].
  split; [reflexivity|]. split; [apply map_get_delete_same|].
  split; [apply map_get_delete_same|]. split.
  - unfold handleConnectionFailure.
    cbn [reconnectAttempts pending]. rewrite map_get_delete_same. reflexivity.
  - intros other Hne. split.
    + rewrite map_get_delete_other by exact Hne.
      rewrite O3, O2, O1 by exact Hne. reflexivity.
    + rewrite map_get_delete_other by exact Hne.
      rewrite C3, C2, C1. reflexivity.
Qed.

Lemma connection_failures_back_off_witness :
  pending (Nat.iter 3 (handleConnectionFailure 11) two_peers)
  = pending two_peers ++ [(2000%Z, 11); (4000%Z, 11); (6000%Z, 11)].
Proof.
  apply (connection_failures_back_off 11 two_peers). reflexivity.
Defined.


End SignalingFacts.

(** ** Delivery at most once, and sessions no ballot can decide *)

Section SequenceFacts.

Import Relay Consensus Lifecycle Sequences.





Lemma outnumbered_step k now sid v g d :
  outnumbered k sid d ->
  let d' := snd (castBallot k now (vote sid v g) d) in
  outnumbered k sid d' /\
  ballot_status (fst (castBallot k now (vote sid v g) d))
  = Some "waiting_for_responses".
Proof.
  intros [Hst Hout]. cbn zeta.
  destruct (castBallot_pending k now sid v g d Hst)
    as (Hperm & Hp & Hres & Hr & Hst').
  pose proof (ballots_upsert_length now (next_uuid d) sid v g
                (permissions_of k d)) as Hlen.
  pose proof (upsert_recorded now (next_uuid d) sid v g (permissions_of k d))
    as Hrec.
  assert (Hpos : 0 < List.length (ballots sid
                   (upsert now (next_uuid d) sid v g (permissions_of k d)))).
  { apply existsb_exists in Hrec. destruct Hrec as [b [Hb Hv]].
    assert (Hin : In b (ballots sid (upsert now (next_uuid d) sid v g
                                            (permissions_of k d)))).
    { apply filter_In. split; [exact Hb|]. unfold same_voter in Hv.
      apply andb_prop in Hv. tauto. }
    destruct (ballots sid _); [contradiction | simpl; lia]. }
  assert (Hgt : List.length (online_now k sid d)
                < List.length (ballots sid
                    (upsert now (next_uuid d) sid v g (permissions_of k d)))).
  { destruct Hout as [E|Hlt]; [rewrite E; exact Hpos|].
    unfold recorded_ballots in Hlt.
    destruct (existsb _ _); lia. }
  assert (Hwait : newStatus (active_status k)
                    (List.length (ballots sid
                       (upsert now (next_uuid d) sid v g (permissions_of k d))))
                    (List.length (online_now k sid d))
                    (allGranted (ballots sid
                       (upsert now (next_uuid d) sid v g (permissions_of k d))))
                  = None).
  { apply newStatus_waiting. lia. }
  rewrite Hwait in Hst', Hres. split.
  - split; [exact Hst'|]. right.
    rewrite (online_now_stable k sid _ d Hp Hr).
    unfold recorded_ballots. rewrite Hperm. exact Hgt.
  - rewrite Hres. reflexivity.
Qed.

(** X9: A pending session stays pending for ever when nobody is online in its
    room, or when it holds more ballots than participants are online (some
    went offline after voting): every ballot, grant or denial, by anyone, is
    then answered [waiting_for_responses]. *)
Theorem outnumbered_session_never_decides k now sid votes db :
  outnumbered k sid db ->
  session_state k sid (cast_each k now sid votes db)
  = Some "pending_permission".
Proof.
  revert db. induction votes as [|[v g] votes IH]; simpl; intros db H.
  - apply H.
  - apply IH. apply (outnumbered_step k now sid v g db H).
Qed.

Lemma outnumbered_session_never_decides_witness :
  session_state Recording 100
    (cast_each Recording 9 100 [(10, true); (11, true); (12, false)]
               (deserted Recording))
  = Some "pending_permission".
Proof.
  apply (outnumbered_session_never_decides Recording 9 100
           [(10, true); (11, true); (12, false)] (deserted Recording)).
  split; [reflexivity|]. left. reflexivity.
Defined.

End SequenceFacts.
